(** * ripozo: decorators and CRUD+L mixins

    A shallow embedding of [ripozo/decorators.py] and
    [ripozo/resources/restmixins.py].

    - Part I gives the Python values, the exceptions and the monad of
      call-time computations: a state, a result or an exception, and the
      calls made to the external collaborators (hooks, request container,
      manager).
    - Part II embeds the decorators: the closures they build ([wrapped],
      [newfunc], [action]) and what they do to the attributes of the
      functions, the [routes] list being an object shared on a heap.
    - Part III applies stacks of decorators.
    - Part IV embeds the mixin classes: method resolution order, the
      [links] class properties, the bodies of [create] and [update].
    - Part V is the vocabulary of the properties and a small world for
      examples.
    - Part VI proves the properties. *)

From stdpp Require Import base option list strings gmap.
From Stdlib Require Import ZArith Lia.

Set Warnings "-register-all".
Local Open Scope string_scope.
Local Open Scope list_scope.

(** * Part I. Values, exceptions, effects *)

(** Exceptions.  [TypeError], [IndexError] and [AttributeError] are raised
    by the interpreter itself; [Exception] stands for anything raised by a
    collaborator (a validation error, a not-found error, a hook failure). *)
Inductive exn :=
| TypeError (msg : string)
| IndexError (msg : string)
| AttributeError (msg : string)
| Exception (kind : string) (msg : string).

Inductive outcome (A : Type) :=
| Return (a : A)
| Raise (e : exn).
Arguments Return {A} a.
Arguments Raise {A} e.

(** A field descriptor is opaque to the decorators: they only build lists
    of them and hand the lists to the request container. *)
Inductive Field := FieldBase (name : string).

(** The manager attributes that the code reads. *)
Record Manager := {
  manager_name : string;
  field_validators : list Field;
  fields : list string;
  pagination_pk_query_arg : string;
  pagination_count_query_arg : string
}.

(** A pre- or post-processor is a callable registered on the class. *)
Definition processor := string.

(** A resource class, as far as the call-time code looks at it:
    [cls.preprocessors], [cls.postprocessors], [cls.manager] (None when the
    class has no manager), [cls.__name__], and the names of the classes of
    [cls.__mro__], the class itself first. *)
Record pyclass := {
  __name__ : string;
  __mro__ : list string;
  preprocessors : list processor;
  postprocessors : list processor;
  manager : option Manager
}.

Inductive pytype :=
| ResourceClass (c : pyclass)
| OtherType (name : string).

Inductive value :=
| VNone
| VBool (b : bool)
| VInt (z : Z)
| VStr (s : string)
| VList (l : list value)
| VDict (d : list (string * value))
| VType (t : pytype)                               (* a class object *)
| VInstance (t : pytype) (id : nat)                (* any other object *)
| VNew (t : pytype) (init : list (string * value)). (* [cls(init)] *)

Definition kwargs := list (string * value).

(** [isinstance(v, type)] *)
Definition isinstance_type (v : value) : bool :=
  match v with
  | VType _ => true
  | _ => false
  end.

(** [type(v)] *)
Definition type_of (v : value) : pytype :=
  match v with
  | VNone => OtherType "NoneType"
  | VBool _ => OtherType "bool"
  | VInt _ => OtherType "int"
  | VStr _ => OtherType "str"
  | VList _ => OtherType "list"
  | VDict _ => OtherType "dict"
  | VType _ => OtherType "type"
  | VInstance t _ => t
  | VNew t _ => t
  end.

(** What the interpreter says when an attribute is read from a value that
    does not have it. *)
Definition no_attribute (v : value) (name : string) : exn :=
  match type_of v, v with
  | _, VType (ResourceClass c) =>
      AttributeError ("type object '" +:+ __name__ c +:+ "' has no attribute '" +:+ name +:+ "'")
  | _, VType (OtherType n) =>
      AttributeError ("type object '" +:+ n +:+ "' has no attribute '" +:+ name +:+ "'")
  | ResourceClass c, _ =>
      AttributeError ("'" +:+ __name__ c +:+ "' object has no attribute '" +:+ name +:+ "'")
  | OtherType n, _ =>
      AttributeError ("'" +:+ n +:+ "' object has no attribute '" +:+ name +:+ "'")
  end.

(** The two objects that [validate] creates and that its closure reads at
    call time: the decorator instance ([self]) and the attributes set on
    the function [action]. *)
Record validate_obj := {
  self_fields : list Field;
  self_original_fields : option (list Field);   (* set by [__call__] *)
  self_manager_field_validators : bool;
  self_skip_required : bool
}.

Record action_attrs := {
  action_fields : list Field;
  action_original_fields : list Field;
  action_manager_field_validators : bool
}.

(** Calls that leave the code under study, with what came back. *)
Inductive event :=
| EvProcessor (p : processor) (args : list value) (kw : kwargs) (raised : option exn)
| EvValidate (request : value) (fs : list Field) (skip_required : bool) (raised : option exn)
| EvTranslate (request : value) (fs : list Field) (raised : option exn)
| EvManager (m : Manager) (method : string) (args : list value) (out : outcome value)
| EvBody (name : string) (args : list value) (kw : kwargs).

(** The collaborators: the hooks, the request container and the manager.
    Each may change the world [W] and may raise. *)
Class World (W : Type) := {
  run_processor : processor -> list value -> kwargs -> W -> option exn * W;
  request_validate : value -> list Field -> bool -> W -> option exn * W;
  request_translate : value -> list Field -> W -> option exn * W;
  request_attr : value -> string -> W -> outcome value;
  manager_call : Manager -> string -> list value -> W -> outcome value * W
}.

(** Computations: a state [S], a result or an exception, and the events
    emitted on the way. *)
Record result (S A : Type) := {
  res : outcome A;
  final : S;
  emitted : list event
}.
Arguments res {S A} r.
Arguments final {S A} r.
Arguments emitted {S A} r.

Definition M (S A : Type) : Type := S -> result S A.

Definition ret {S A} (a : A) : M S A :=
  fun s => {| res := Return a; final := s; emitted := [] |}.

Definition raise {S A} (e : exn) : M S A :=
  fun s => {| res := Raise e; final := s; emitted := [] |}.

Definition bind {S A B} (m : M S A) (k : A -> M S B) : M S B :=
  fun s =>
    match m s with
    | {| res := Raise e; final := s1; emitted := es |} =>
        {| res := Raise e; final := s1; emitted := es |}
    | {| res := Return a; final := s1; emitted := es |} =>
        match k a s1 with
        | {| res := o; final := s2; emitted := es' |} =>
            {| res := o; final := s2; emitted := es ++ es' |}
        end
    end.

#[global] Instance M_ret {S} : MRet (M S) := @ret S.
#[global] Instance M_bind {S} : MBind (M S) := fun A B k m => bind m k.

#[global] Instance outcome_ret : MRet outcome := @Return.
#[global] Instance outcome_bind : MBind outcome :=
  fun A B k m => match m with Return a => k a | Raise e => Raise e end.

Definition raised_or_unit (r : option exn) : outcome unit :=
  match r with
  | None => Return tt
  | Some e => Raise e
  end.

(** [proc( *args, **kw)]; the return value of a hook is discarded. *)
Definition call_processor `{World W} (p : processor) (args : list value) (kw : kwargs)
  : M W unit :=
  fun w =>
    let '(r, w') := run_processor p args kw w in
    {| res := raised_or_unit r; final := w'; emitted := [EvProcessor p args kw r] |}.

(** [request.validate(fs, skip_required=skip)] *)
Definition call_validate `{World W} (request : value) (fs : list Field) (skip : bool)
  : M W unit :=
  fun w =>
    let '(r, w') := request_validate request fs skip w in
    {| res := raised_or_unit r; final := w'; emitted := [EvValidate request fs skip r] |}.

(** [request.translate(fs)] *)
Definition call_translate `{World W} (request : value) (fs : list Field) : M W unit :=
  fun w =>
    let '(r, w') := request_translate request fs w in
    {| res := raised_or_unit r; final := w'; emitted := [EvTranslate request fs r] |}.

(** [request.<name>] *)
Definition read_request `{World W} (request : value) (name : string) : M W value :=
  fun w => {| res := request_attr request name w; final := w; emitted := [] |}.

(** [manager.<method>( *args)] *)
Definition call_manager `{World W} (m : Manager) (method : string) (args : list value)
  : M W value :=
  fun w =>
    let '(r, w') := manager_call m method args w in
    {| res := r; final := w'; emitted := [EvManager m method args r] |}.

(** The interpreter state at call time: the collaborators' world and the
    two objects of [validate] ([self] and the attributes of [action]). *)
Record store (W : Type) := {
  world : W;
  self_obj : validate_obj;
  action_obj : action_attrs
}.
Arguments world {W} s.
Arguments self_obj {W} s.
Arguments action_obj {W} s.

Definition set_world {W} (s : store W) (w : W) : store W :=
  {| world := w; self_obj := self_obj s; action_obj := action_obj s |}.

Definition set_self {W} (s : store W) (o : validate_obj) : store W :=
  {| world := world s; self_obj := o; action_obj := action_obj s |}.

(** A computation on the collaborators, run inside the interpreter. *)
Definition lift {W A} (m : M W A) : M (store W) A :=
  fun s =>
    let r := m (world s) in
    {| res := res r; final := set_world s (final r); emitted := emitted r |}.

Definition emit {S} (e : event) : M S unit :=
  fun s => {| res := Return tt; final := s; emitted := [e] |}.

(** [for x in xs: body(x)] *)
Fixpoint for_each {S A} (xs : list A) (body : A -> M S unit) : M S unit :=
  match xs with
  | [] => mret tt
  | x :: xs' => body x ;; for_each xs' body
  end.

(** Attribute reads on the value bound to [cls]. *)
Definition getattr_preprocessors {S} (cls : value) : M S (list processor) :=
  match cls with
  | VType (ResourceClass c) => mret (preprocessors c)
  | _ => raise (no_attribute cls "preprocessors")
  end.

Definition getattr_postprocessors {S} (cls : value) : M S (list processor) :=
  match cls with
  | VType (ResourceClass c) => mret (postprocessors c)
  | _ => raise (no_attribute cls "postprocessors")
  end.

(** [cls.manager] *)
Definition getattr_manager {S} (cls : value) : M S (option Manager) :=
  match cls with
  | VType (ResourceClass c) => mret (manager c)
  | _ => raise (no_attribute cls "manager")
  end.

(** [cls.manager.field_validators] *)
Definition getattr_manager_field_validators {S} (cls : value) : M S (list Field) :=
  m ← getattr_manager cls;
  match m with
  | Some m => mret (field_validators m)
  | None => raise (no_attribute VNone "field_validators")
  end.

(** ** Objects built at decoration time *)

(** A route entry is the tuple [(route, endpoint, options)]. *)
Abbreviation route_entry := (string * option string * kwargs)%type (only parsing).

(** A [routes] list is a mutable object that several functions may hold:
    the heap maps a reference to the current content of the list. *)
Abbreviation loc := nat (only parsing).
Abbreviation heap := (list (list route_entry)) (only parsing).

(** The attribute values that the decorators store. *)
Inductive attr :=
| ARoutes (l : loc)               (* a reference to a list of route entries *)
| ABool (b : bool)
| AFields (fs : list Field)
| AFunction (name : string).      (* a reference to a function object *)

(** Decoration-time computations allocate and update list objects. *)
Definition D (A : Type) : Type := heap -> A * heap.

#[global] Instance D_ret : MRet D := fun A a h => (a, h).
#[global] Instance D_bind : MBind D :=
  fun A B k m h => let '(a, h') := m h in k a h'.

(** [[]]: a new empty list *)
Definition new_list : D loc :=
  fun h => (length h, h ++ [[]]).

(** [l.append(e)] *)
Definition list_append (l : loc) (e : route_entry) : D unit :=
  fun h =>
    match h !! l with
    | Some es => (tt, <[l := es ++ [e]]> h)
    | None => (tt, h)
    end.

(** A Python function taking [(cls, request, *args, **kwargs)], with its
    [__name__] and its [__dict__]. *)
Definition code (W : Type) : Type :=
  value -> value -> list value -> kwargs -> M (store W) value.

Record function (W : Type) := {
  fn_name : string;
  fn_code : code W;
  fn_dict : gmap string attr
}.
Arguments fn_name {W} f.
Arguments fn_code {W} f.
Arguments fn_dict {W} f.

(** [f( *pos)] for such a function: the first two positional arguments
    bind [cls] and [request], the others go to [*args]. *)
Definition apply_positional {W} (f : function W) (pos : list value) : M (store W) value :=
  match pos with
  | cls :: request :: rest => fn_code f cls request rest []
  | [_] =>
      raise (TypeError (fn_name f +:+ "() missing 1 required positional argument: 'request'"))
  | [] =>
      raise (TypeError (fn_name f +:+ "() missing 2 required positional arguments: 'cls' and 'request'"))
  end.

(** A function written [def name(cls, request): ...] whose body talks to
    the collaborators only.  Entering the body is recorded. *)
Definition def_ {W} (name : string) (body : value -> value -> M W value) : function W :=
  {| fn_name := name;
     fn_code := fun cls request args kw =>
       match args, kw with
       | [], [] =>
           emit (EvBody name [cls; request] []) ;;
           lift (body cls request)
       | _ :: _, _ =>
           raise (TypeError (name +:+ "() takes 2 positional arguments but more were given"))
       | [], (k, _) :: _ =>
           raise (TypeError (name +:+ "() got an unexpected keyword argument '" +:+ k +:+ "'"))
       end;
     fn_dict := ∅ |}.

(** * Part II. The decorators *)

(** ** [_apiclassmethod] *)
Module _apiclassmethod.

(** The instance attributes [f], [rest_route] and [routes]; [_name] is the
    class attribute ['_apiclassmethod']. *)
Record t (W : Type) := {
  f : function W;
  rest_route : bool;
  routes : loc
}.
Arguments f {W} _.
Arguments rest_route {W} _.
Arguments routes {W} _.

(** [getattr(f, 'routes', [])]; the key [routes] only ever holds a
    reference to a list. *)
Definition getattr_routes (d : gmap string attr) : D loc :=
  match d !! "routes" with
  | Some (ARoutes l) => mret l
  | _ => new_list
  end.

Definition __init__ {W} (f : function W) : D (t W) :=
  l ← getattr_routes (fn_dict f);
  mret {| f := f; rest_route := true; routes := l |}.

Definition _name : string := "_apiclassmethod".

(** The property [__name__] *)
Definition __name__ {W} (self : t W) : string := _name.

(** [self.__dict__] *)
Definition __dict__ {W} (self : t W) : gmap string attr :=
  <["f" := AFunction (fn_name (f self))]>
    (<["rest_route" := ABool (rest_route self)]>
       (<["routes" := ARoutes (routes self)]> ∅)).

(** [def newfunc( *args)] inside [__get__]: it declares no keyword
    parameter, so a call with one is refused before the body runs. *)
Definition newfunc {W} (method : function W) (klass : pytype)
  (args : list value) (kw : kwargs) : M (store W) value :=
  match kw with
  | (k, _) :: _ =>
      raise (TypeError ("newfunc() got an unexpected keyword argument '" +:+ k +:+ "'"))
  | [] =>
      match args with
      | [] => raise (IndexError "tuple index out of range")
      | a0 :: _ =>
          if negb (isinstance_type a0)
          then apply_positional method (VType klass :: args)
          else apply_positional method args
      end
  end.

(** The function returned by [__get__]: what calling it does, and its
    attributes. *)
Record bound (W : Type) := {
  bound_name : string;
  bound_call : list value -> kwargs -> M (store W) value;
  bound_dict : gmap string attr
}.
Arguments bound_name {W} _.
Arguments bound_call {W} _.
Arguments bound_dict {W} _.

Definition __get__ {W} (self : t W) (obj : value) (klass : option pytype) : D (bound W) :=
  let klass := match klass with
               | None => type_of obj
               | Some k => k
               end in
  let method := f self in
  l ← getattr_routes (fn_dict (f self));
  mret {| bound_name := fn_name method;
          bound_call := newfunc method klass;
          bound_dict :=
            <["routes" := ARoutes l]>
              (<["__rest_route__" := ABool true]>
                 (<["__wrapped__" := AFunction (fn_name method)]> (fn_dict method))) |}.

End _apiclassmethod.

(** Attribute access finds the descriptor in the class where it was
    defined and calls [__get__] with the class the access went through:
    [B.action] is [__get__(None, B)] and [b.action] is
    [__get__(b, type(b))]. *)
Definition getattr_on_class {W} (d : _apiclassmethod.t W) (B : pyclass)
  : D (_apiclassmethod.bound W) :=
  _apiclassmethod.__get__ d VNone (Some (ResourceClass B)).

Definition getattr_on_instance {W} (d : _apiclassmethod.t W) (b : value)
  : D (_apiclassmethod.bound W) :=
  _apiclassmethod.__get__ d b (Some (type_of b)).

(** The same through inheritance: the action is defined in the body of
    class [A] and read as [B.action] or [b.action] with [b] an instance of
    [B]; it is found when [A] is in the resolution order of [B]. *)
Definition getattr_inherited {W} (A : pyclass) (d : _apiclassmethod.t W) (B : pyclass)
  : outcome (D (_apiclassmethod.bound W)) :=
  if bool_decide (__name__ A ∈ __mro__ B)
  then Return (getattr_on_class d B)
  else Raise (no_attribute (VType (ResourceClass B)) (fn_name (_apiclassmethod.f d))).

Definition getattr_inherited_on_instance {W} (A : pyclass) (d : _apiclassmethod.t W)
  (b : value) : outcome (D (_apiclassmethod.bound W)) :=
  match type_of b with
  | ResourceClass B =>
      if bool_decide (__name__ A ∈ __mro__ B)
      then Return (getattr_on_instance d b)
      else Raise (no_attribute b (fn_name (_apiclassmethod.f d)))
  | OtherType _ => Raise (no_attribute b (fn_name (_apiclassmethod.f d)))
  end.

(** What a decorator may be applied to: a function, or the object that
    [apimethod] returned. *)
Inductive pyobj (W : Type) :=
| Fn (f : function W)
| Acm (a : _apiclassmethod.t W).
Arguments Fn {W} f.
Arguments Acm {W} a.

(** [o.__name__] *)
Definition name_of {W} (o : pyobj W) : string :=
  match o with
  | Fn f => fn_name f
  | Acm a => _apiclassmethod.__name__ a
  end.

(** [o.__dict__] *)
Definition dict_of {W} (o : pyobj W) : gmap string attr :=
  match o with
  | Fn f => fn_dict f
  | Acm a => _apiclassmethod.__dict__ a
  end.

(** [o(cls, request, *args, **kwargs)]: an [_apiclassmethod] object has no
    [__call__]. *)
Definition call {W} (o : pyobj W) : code W :=
  match o with
  | Fn f => fn_code f
  | Acm _ => fun _ _ _ _ => raise (TypeError "'_apiclassmethod' object is not callable")
  end.

(** [functools.wraps(o)] applied to a new function with the given code:
    the new function takes the name of [o], the entries of [o.__dict__],
    and [__wrapped__]. *)
Definition wraps {W} (o : pyobj W) (c : code W) : function W :=
  {| fn_name := name_of o;
     fn_code := c;
     fn_dict := <["__wrapped__" := AFunction (name_of o)]> (dict_of o) |}.

(** [f.<key> = a] on a function object *)
Definition setattr {W} (f : function W) (key : string) (a : attr) : function W :=
  {| fn_name := fn_name f; fn_code := fn_code f; fn_dict := <[key := a]> (fn_dict f) |}.

(** ** [apimethod] *)
Module apimethod.

Record t := {
  route : string;
  endpoint : option string;
  options : kwargs
}.

Definition __init__ (route : string) (endpoint : option string) (options : kwargs) : t :=
  {| route := route; endpoint := endpoint; options := options |}.

Definition wrapped `{World W} (f : pyobj W) : code W :=
  fun cls request args kwargs =>
    procs ← getattr_preprocessors cls;
    for_each procs (fun proc =>
      lift (call_processor proc ([cls; VStr (name_of f); request] ++ args) kwargs));;
    resource ← call f cls request args kwargs;
    procs ← getattr_postprocessors cls;
    for_each procs (fun proc =>
      lift (call_processor proc ([cls; VStr (name_of f); request; resource] ++ args) kwargs));;
    mret resource.

Definition __call__ `{World W} (self : t) (f : pyobj W) : D (_apiclassmethod.t W) :=
  let wrapped := wraps f (wrapped f) in
  let wrapped := setattr wrapped "__rest_route__" (ABool true) in
  l ← _apiclassmethod.getattr_routes (dict_of f);
  let wrapped := setattr wrapped "routes" (ARoutes l) in
  list_append l (route self, endpoint self, options self);;
  _apiclassmethod.__init__ wrapped.

End apimethod.

(** ** [validate] *)
Module validate.

Definition __init__ (fields : option (list Field))
  (manager_field_validators skip_required : bool) : validate_obj :=
  {| self_fields := match fields with Some l => l | None => [] end;
     self_original_fields := None;
     self_manager_field_validators := manager_field_validators;
     self_skip_required := skip_required |}.

Definition read_self {W} : M (store W) validate_obj :=
  fun s => {| res := Return (self_obj s); final := s; emitted := [] |}.

Definition read_action {W} : M (store W) action_attrs :=
  fun s => {| res := Return (action_obj s); final := s; emitted := [] |}.

(** [self.original_fields] *)
Definition read_self_original_fields {W} : M (store W) (list Field) :=
  self ← read_self;
  match self_original_fields self with
  | Some l => mret l
  | None => raise (AttributeError "'validate' object has no attribute 'original_fields'")
  end.

(** [self.fields = v] *)
Definition assign_self_fields {W} (v : list Field) : M (store W) unit :=
  fun s =>
    let o := self_obj s in
    {| res := Return tt;
       final := set_self s
         {| self_fields := v;
            self_original_fields := self_original_fields o;
            self_manager_field_validators := self_manager_field_validators o;
            self_skip_required := self_skip_required o |};
       emitted := [] |}.

Definition action `{World W} (f : pyobj W) : code W :=
  fun cls request args kwargs =>
    self ← read_self;
    (if self_manager_field_validators self then
       original ← read_self_original_fields;
       mfv ← getattr_manager_field_validators cls;
       assign_self_fields (original ++ mfv);;
       act ← read_action;
       mfv ← getattr_manager_field_validators cls;
       self ← read_self;
       lift (call_validate request (action_original_fields act ++ mfv)
               (self_skip_required self))
     else
       act ← read_action;
       self ← read_self;
       lift (call_validate request (action_original_fields act)
               (self_skip_required self)));;
    call f cls request args kwargs.

(** The same closure without the statement
    [self.fields = self.original_fields + cls.manager.field_validators]. *)
Definition action_without_assignment `{World W} (f : pyobj W) : code W :=
  fun cls request args kwargs =>
    self ← read_self;
    (if self_manager_field_validators self then
       act ← read_action;
       mfv ← getattr_manager_field_validators cls;
       self ← read_self;
       lift (call_validate request (action_original_fields act ++ mfv)
               (self_skip_required self))
     else
       act ← read_action;
       self ← read_self;
       lift (call_validate request (action_original_fields act)
               (self_skip_required self)));;
    call f cls request args kwargs.

(** What [__call__] leaves behind: the decorator instance with
    [original_fields] set, the attributes that the closure reads from
    [action] at call time, and [action] itself. *)
Record decorated (W : Type) := {
  self_after : validate_obj;
  attrs : action_attrs;
  func : function W
}.
Arguments self_after {W} _.
Arguments attrs {W} _.
Arguments func {W} _.

Definition decorate_with `{World W} (closure : pyobj W -> code W)
  (self : validate_obj) (f : pyobj W) : decorated W :=
  let action := wraps f (closure f) in
  let action := setattr action "fields" (AFields (self_fields self)) in
  let self' :=
    {| self_fields := self_fields self;
       self_original_fields := Some (self_fields self);
       self_manager_field_validators := self_manager_field_validators self;
       self_skip_required := self_skip_required self |} in
  let action := setattr action "original_fields" (AFields (self_fields self)) in
  let action := setattr action "__manager_field_validators__"
                  (ABool (self_manager_field_validators self)) in
  {| self_after := self';
     attrs :=
       {| action_fields := self_fields self;
          action_original_fields := self_fields self;
          action_manager_field_validators := self_manager_field_validators self |};
     func := action |}.

Definition __call__ `{World W} (self : validate_obj) (f : pyobj W) : decorated W :=
  decorate_with action self f.

(** [__call__] with the closure that leaves [self.fields] alone. *)
Definition __call__without_assignment `{World W} (self : validate_obj) (f : pyobj W)
  : decorated W :=
  decorate_with action_without_assignment self f.

(** The interpreter state once the decoration is done. *)
Definition loaded {W} (d : decorated W) (w : W) : store W :=
  {| world := w; self_obj := self_after d; action_obj := attrs d |}.

End validate.

(** ** [translate] *)
Module translate.

Record t := {
  fields : list Field;
  manager_field_validators : bool
}.

Definition __init__ (fields : option (list Field)) (manager_field_validators : bool) : t :=
  {| fields := match fields with Some l => l | None => [] end;
     manager_field_validators := manager_field_validators |}.

(** The call [translate(fields=.., manager_field_validators=.., **extra)]:
    [__init__] declares the parameters [fields] and
    [manager_field_validators] and no [**kwargs], so any other keyword is
    refused. *)
Definition new (fields : option (list Field)) (manager_field_validators : option bool)
  (extra : kwargs) : outcome t :=
  match extra with
  | (k, _) :: _ =>
      Raise (TypeError ("__init__() got an unexpected keyword argument '" +:+ k +:+ "'"))
  | [] =>
      Return (__init__ fields
                (match manager_field_validators with Some b => b | None => false end))
  end.

(** [original_fields] is the attribute set on [action] by [__call__]. *)
Definition action `{World W} (self : t) (original_fields : list Field) (f : pyobj W)
  : code W :=
  fun cls request args kwargs =>
    (if manager_field_validators self then
       mfv ← getattr_manager_field_validators cls;
       lift (call_translate request (original_fields ++ mfv))
     else
       lift (call_translate request original_fields));;
    call f cls request args kwargs.

Definition __call__ `{World W} (self : t) (f : pyobj W) : function W :=
  let action := wraps f (action self (fields self) f) in
  let action := setattr action "fields" (AFields (fields self)) in
  let action := setattr action "original_fields" (AFields (fields self)) in
  let action := setattr action "__manager_field_validators__"
                  (ABool (manager_field_validators self)) in
  action.

End translate.

(** * Part III. Stacks of decorators *)

(** One application of a decorator. *)
Inductive layer :=
| Apimethod (a : apimethod.t)
| Validate (v : validate_obj)
| Translate (t : translate.t).

Definition apply_layer `{World W} (l : layer) (f : pyobj W) : D (pyobj W) :=
  match l with
  | Apimethod a => o ← apimethod.__call__ a f; mret (Acm o)
  | Validate v => mret (Fn (validate.func (validate.__call__ v f)))
  | Translate t => mret (Fn (translate.__call__ t f))
  end.

(** The decorators of [ls] applied to [f] one after the other, the first
    of the list first (it is the innermost, the one written just above
    [def]). *)
Fixpoint decorate `{World W} (ls : list layer) (f : pyobj W) : D (pyobj W) :=
  match ls with
  | [] => mret f
  | l :: ls' => f' ← apply_layer l f; decorate ls' f'
  end.

(** The entry that a layer appends, if any. *)
Definition entry_of (l : layer) : list route_entry :=
  match l with
  | Apimethod a => [(apimethod.route a, apimethod.endpoint a, apimethod.options a)]
  | _ => []
  end.

Definition is_apimethod (l : layer) : bool :=
  match l with
  | Apimethod _ => true
  | _ => false
  end.

(** [o.routes], when the attribute exists *)
Definition read_routes {W} (o : pyobj W) (h : heap) : option (list route_entry) :=
  match dict_of o !! "routes" with
  | Some (ARoutes l) => h !! l
  | _ => None
  end.

(** A function that already carries a [routes] list with content [es]
    (the list object is new), or no [routes] attribute at all. *)
Definition with_routes {W} (f : function W) (es : option (list route_entry))
  : D (function W) :=
  match es with
  | Some es => fun h => (setattr f "routes" (ARoutes (length h)), h ++ [es])
  | None => mret f
  end.

(** * Part IV. The mixin classes *)

(** ** Relationships

    The class [Relationship] is not in these files; the mixins only build
    its instances from a name and keyword arguments, which is what is kept
    of them. *)
Inductive rel_arg :=
| RStr (s : string)
| RBool (b : bool)
| RTuple (l : list string)
| RList (l : list string).

Record Relationship := {
  rel_name : string;
  rel_kwargs : list (string * rel_arg)
}.

(** ** Classes and their method resolution order *)

Inductive mixin :=
| ResourceBase
| Create | Retrieve | RetrieveList | RetrieveRetrieveList | Update | Delete
| RetrieveUpdate | RetrieveUpdateDelete | CreateRetrieve | CreateRetrieveUpdate
| CRUD | CRUDL.

#[global] Instance mixin_eq_dec : EqDecision mixin.
Proof. solve_decision. Defined.

(** The bases in the [class] statements of restmixins.py. *)
Definition bases (m : mixin) : list mixin :=
  match m with
  | ResourceBase => []
  | Create | Retrieve | RetrieveList | Update | Delete => [ResourceBase]
  | RetrieveRetrieveList => [RetrieveList; Retrieve]
  | RetrieveUpdate => [Retrieve; Update]
  | RetrieveUpdateDelete => [Retrieve; Update; Delete]
  | CreateRetrieve => [Create; Retrieve]
  | CreateRetrieveUpdate => [Create; Retrieve; Update]
  | CRUD => [Create; Retrieve; Update; Delete]
  | CRUDL => [Create; RetrieveRetrieveList; Update; Delete]
  end.

Definition mixin_name (m : mixin) : string :=
  match m with
  | ResourceBase => "ResourceBase"
  | Create => "Create"
  | Retrieve => "Retrieve"
  | RetrieveList => "RetrieveList"
  | RetrieveRetrieveList => "RetrieveRetrieveList"
  | Update => "Update"
  | Delete => "Delete"
  | RetrieveUpdate => "RetrieveUpdate"
  | RetrieveUpdateDelete => "RetrieveUpdateDelete"
  | CreateRetrieve => "CreateRetrieve"
  | CreateRetrieveUpdate => "CreateRetrieveUpdate"
  | CRUD => "CRUD"
  | CRUDL => "CRUDL"
  end.

(** The C3 merge of Python's method resolution order: take the first head
    that is in the tail of no sequence, remove it from the heads, go on;
    there is no linearisation when no head qualifies. *)
Definition in_a_tail (x : mixin) (seqs : list (list mixin)) : bool :=
  existsb (fun s => bool_decide (x ∈ tail s)) seqs.

Definition good_head (seqs : list (list mixin)) : option mixin :=
  find (fun x => negb (in_a_tail x seqs)) (omap head seqs).

Definition drop_head (x : mixin) (s : list mixin) : list mixin :=
  match s with
  | y :: t => if decide (y = x) then t else s
  | [] => []
  end.

Definition nonempty (s : list mixin) : bool :=
  match s with
  | [] => false
  | _ => true
  end.

Fixpoint merge (fuel : nat) (seqs : list (list mixin)) : option (list mixin) :=
  match filter nonempty seqs with
  | [] => Some []
  | seqs =>
      match fuel with
      | O => None
      | S n =>
          x ← good_head seqs;
          rest ← merge n (map (drop_head x) seqs);
          Some (x :: rest)
      end
  end.

Definition c3 (c : list (list mixin)) : option (list mixin) :=
  merge (length (concat c)) c.

(** [m.__mro__] ([object] left out) *)
Fixpoint mro_upto (depth : nat) (m : mixin) : option (list mixin) :=
  match depth with
  | O => None
  | S n =>
      parents ← mapM (mro_upto n) (bases m);
      rest ← c3 (parents ++ [bases m]);
      Some (m :: rest)
  end.

Definition mro (m : mixin) : option (list mixin) := mro_upto 4 m.

(** A class written by a user of the library:
    [class <name>(<bases>): _links = ...; manager = ...], with no [links]
    of its own. *)
Record user_class := {
  class_name : string;
  class_bases : list mixin;
  class_links : option (list Relationship);
  class_manager : option Manager
}.

Inductive class :=
| Repo (m : mixin)
| User (u : user_class).

(** The mixins of [c.__mro__], in order. *)
Definition mro_of (c : class) : option (list mixin) :=
  match c with
  | Repo m => mro m
  | User u =>
      parents ← mapM mro (class_bases u);
      c3 (parents ++ [class_bases u])
  end.

(** [c.__name__] *)
Definition name_of_class (c : class) : string :=
  match c with
  | Repo m => mixin_name m
  | User u => class_name u
  end.

(** [c._links]: no mixin sets it, so it is what the user class declares,
    or the [None] of the base class. *)
Definition declared_links (c : class) : option (list Relationship) :=
  match c with
  | Repo _ => None
  | User u => class_links u
  end.

(** [c.manager] *)
Definition manager_of (c : class) : option Manager :=
  match c with
  | Repo _ => None
  | User u => class_manager u
  end.

(** [x or tuple()] *)
Definition or_empty (x : option (list Relationship)) : list Relationship :=
  match x with
  | Some l => l
  | None => []
  end.

(** Attribute lookup on a class: the first class of the resolution order
    that defines the attribute. *)
Definition getattr_class {A} (own : mixin -> option A) (what : string) (c : class) : outcome A :=
  match mro_of c with
  | None => Raise (TypeError "Cannot create a consistent method resolution order (MRO)")
  | Some ms =>
      match omap own ms with
      | a :: _ => Return a
      | [] =>
          Raise (AttributeError ("type object '" +:+ name_of_class c +:+
                                 "' has no attribute '" +:+ what +:+ "'"))
      end
  end.

(** ** The static methods [get_base_links] *)

Definition Create_get_base_links (actual_class : class) : list Relationship :=
  [ {| rel_name := "created";
       rel_kwargs := [("relation", RStr (name_of_class actual_class));
                      ("embedded", RBool true)] |} ].

Definition RetrieveList_get_base_links (actual_class : class) : list Relationship :=
  let fields :=
    match manager_of actual_class with
    | Some m =>
        RTuple (fields m ++ [pagination_pk_query_arg m; pagination_count_query_arg m])
    | None => RList []
    end in
  [ {| rel_name := "next";
       rel_kwargs := [("relation", RStr (name_of_class actual_class));
                      ("query_args", fields); ("no_pks", RBool true)] |};
    {| rel_name := "previous";
       rel_kwargs := [("relation", RStr (name_of_class actual_class));
                      ("query_args", fields); ("no_pks", RBool true)] |} ].

(** Which class defines [get_base_links]. *)
Definition own_get_base_links (m : mixin) : option (class -> list Relationship) :=
  match m with
  | Create => Some Create_get_base_links
  | RetrieveList => Some RetrieveList_get_base_links
  | _ => None
  end.

(** ** The class properties [links] *)

(** Modelled from the spec: [ResourceBase.links].  The class ResourceBase
    is not in these files; a class to which no mixin contributes a link
    exposes its declared [_links]. *)
Definition ResourceBase_links (cls : class) : outcome (list Relationship) :=
  Return (or_empty (declared_links cls)).

Definition Create_links (cls : class) : outcome (list Relationship) :=
  let links := or_empty (declared_links cls) in
  get_base_links ← getattr_class own_get_base_links "get_base_links" (Repo Create);
  Return (links ++ get_base_links cls).

Definition RetrieveList_links (cls : class) : outcome (list Relationship) :=
  let links := or_empty (declared_links cls) in
  get_base_links ← getattr_class own_get_base_links "get_base_links" cls;
  Return (links ++ get_base_links cls).

Definition CRUDL_links (cls : class) : outcome (list Relationship) :=
  let links := or_empty (declared_links cls) in
  create ← getattr_class own_get_base_links "get_base_links" (Repo Create);
  retrieve_list ← getattr_class own_get_base_links "get_base_links" (Repo RetrieveRetrieveList);
  Return (links ++ create cls ++ retrieve_list cls).

(** Which class defines [links]. *)
Definition own_links (m : mixin) : option (class -> outcome (list Relationship)) :=
  match m with
  | ResourceBase => Some ResourceBase_links
  | Create => Some Create_links
  | RetrieveList => Some RetrieveList_links
  | CRUDL => Some CRUDL_links
  | _ => None
  end.

(** Modelled from the spec: the decorator [classproperty], which is
    imported from ripozo.decorators but not defined in the file at hand.
    Reading [cls.links] runs the getter found by attribute lookup, with the
    class the read went through. *)
Definition links (cls : class) : outcome (list Relationship) :=
  getter ← getattr_class own_links "links" cls;
  getter cls.

(** ** What the accumulated links should be *)

(** The base links that mixin [m] contributes to class [cls]. *)
Definition base_links_of (m : mixin) (cls : class) : list Relationship :=
  match own_get_base_links m with
  | Some get_base_links => get_base_links cls
  | None => []
  end.

(** The declared [_links] followed by the base links of every class of
    the resolution order, each once. *)
Definition accumulated_links (cls : class) (ms : list mixin) : list Relationship :=
  or_empty (declared_links cls) ++ flat_map (fun m => base_links_of m cls) ms.

(** ** The actions [create] and [update] *)

(** [cls( **init)].  The constructor of ResourceBase is not in these files:
    the instance is kept as the class and the keyword arguments it was
    built from ([properties], [meta], [status_code]). *)
Definition instantiate {S} (cls : value) (init : kwargs) : M S value :=
  match cls with
  | VType t => mret (VNew t init)
  | _ => raise (TypeError "object is not callable")
  end.

(** The body of [Create.create]. *)
Definition create_body `{World W} (cls request : value) : M W value :=
  m ← getattr_manager cls;
  match m with
  | None => raise (no_attribute VNone "create")
  | Some m =>
      body_args ← read_request request "body_args";
      props ← call_manager m "create" [body_args];
      let meta := VDict [("links", VDict [("created", props)])] in
      instantiate cls [("properties", props); ("meta", meta); ("status_code", VInt 201)]
  end.

(** The body of [Update.update]. *)
Definition update_body `{World W} (cls request : value) : M W value :=
  m ← getattr_manager cls;
  match m with
  | None => raise (no_attribute VNone "update")
  | Some m =>
      url_params ← read_request request "url_params";
      body_args ← read_request request "body_args";
      props ← call_manager m "update" [url_params; body_args];
      instantiate cls [("properties", props); ("status_code", VInt 200)]
  end.

(** The statements of the class bodies that build the two actions: the
    decorator expressions are evaluated from the top, then applied from
    the bottom. *)
Definition Create_create `{World W} : outcome (D (_apiclassmethod.t W)) :=
  a ← Return (apimethod.__init__ "" None
                [("methods", VList [VStr "POST"]); ("no_pks", VBool true)]);
  t ← translate.new None (Some true) [("validate", VBool true)];
  Return (apimethod.__call__ a (Fn (translate.__call__ t (Fn (def_ "create" create_body))))).

Definition Update_update `{World W} : outcome (D (_apiclassmethod.t W)) :=
  a ← Return (apimethod.__init__ "" None [("methods", VList [VStr "PATCH"])]);
  t ← translate.new None (Some true)
        [("skip_required", VBool true); ("validate", VBool true)];
  Return (apimethod.__call__ a (Fn (translate.__call__ t (Fn (def_ "update" update_body))))).

(** ** The actions [retrieve], [delete] and [retrieve_list] *)

(** The body of [Retrieve.retrieve]. *)
Definition retrieve_body `{World W} (cls request : value) : M W value :=
  m ← getattr_manager cls;
  match m with
  | None => raise (no_attribute VNone "retrieve")
  | Some m =>
      url_params ← read_request request "url_params";
      props ← call_manager m "retrieve" [url_params];
      instantiate cls [("properties", props); ("status_code", VInt 200)]
  end.

(** The body of [Delete.delete]: no [status_code] is passed. *)
Definition delete_body `{World W} (cls request : value) : M W value :=
  m ← getattr_manager cls;
  match m with
  | None => raise (no_attribute VNone "delete")
  | Some m =>
      url_params ← read_request request "url_params";
      props ← call_manager m "delete" [url_params];
      instantiate cls [("properties", props)]
  end.

(** Dicts keep their keys in insertion order.  [d[k] = v] replaces the
    value of a key that is there and appends a key that is not. *)
Fixpoint dict_set (d : list (string * value)) (k : string) (v : value)
  : list (string * value) :=
  match d with
  | [] => [(k, v)]
  | (k', v') :: d' =>
      if String.eqb k' k then (k, v) :: d' else (k', v') :: dict_set d' k v
  end.

(** [d.get(k)] *)
Fixpoint dict_get (d : list (string * value)) (k : string) : option value :=
  match d with
  | [] => None
  | (k', v') :: d' => if String.eqb k' k then Some v' else dict_get d' k
  end.

(** [d.update(other)] for [other] a dict.  The request container hands out
    its parameters as dicts; a value that is not iterable is refused with
    [TypeError]. *)
Definition dict_update {S} (d : list (string * value)) (other : value)
  : M S (list (string * value)) :=
  match other with
  | VDict q => mret (foldl (fun acc kv => dict_set acc kv.1 kv.2) d q)
  | _ => raise (TypeError "object is not iterable")
  end.

(** [props, meta = answer]: a sequence of two items is taken apart; a
    sequence of another length is a [ValueError], a value that is not
    iterable a [TypeError]. *)
Definition unpack_pair {S} (answer : value) : M S (value * value) :=
  match answer with
  | VList [a; b] => mret (a, b)
  | VList _ => raise (Exception "ValueError" "wrong number of values to unpack")
  | VDict [(k1, _); (k2, _)] => mret (VStr k1, VStr k2)
  | VDict _ => raise (Exception "ValueError" "wrong number of values to unpack")
  | VStr (String c1 (String c2 EmptyString)) =>
      mret (VStr (String c1 EmptyString), VStr (String c2 EmptyString))
  | VStr _ => raise (Exception "ValueError" "wrong number of values to unpack")
  | _ => raise (TypeError "cannot unpack non-iterable object")
  end.

(** The body of [RetrieveList.retrieve_list].  [cls.resource_name] is a
    class property of ResourceBase, which is not in these files: its value
    is the parameter [resource_name]. *)
Definition retrieve_list_body `{World W} (resource_name : string) (cls request : value)
  : M W value :=
  m ← getattr_manager cls;
  match m with
  | None => raise (no_attribute VNone "retrieve_list")
  | Some m =>
      query_args ← read_request request "query_args";
      answer ← call_manager m "retrieve_list" [query_args];
      pm ← unpack_pair answer;
      let return_props := [(resource_name, pm.1)] in
      query_args ← read_request request "query_args";
      return_props ← dict_update return_props query_args;
      instantiate cls [("properties", VDict return_props); ("meta", pm.2);
                       ("status_code", VInt 200);
                       ("query_args", VList (VStr <$> fields m))]
  end.

(** The statements of the class bodies that build these actions. *)
Definition Retrieve_retrieve `{World W} : outcome (D (_apiclassmethod.t W)) :=
  a ← Return (apimethod.__init__ "" None [("methods", VList [VStr "GET"])]);
  t ← translate.new None (Some true) [];
  Return (apimethod.__call__ a (Fn (translate.__call__ t (Fn (def_ "retrieve" retrieve_body))))).

Definition Delete_delete `{World W} : outcome (D (_apiclassmethod.t W)) :=
  a ← Return (apimethod.__init__ "" None [("methods", VList [VStr "DELETE"])]);
  t ← translate.new None (Some true) [];
  Return (apimethod.__call__ a (Fn (translate.__call__ t (Fn (def_ "delete" delete_body))))).

Definition RetrieveList_retrieve_list `{World W} (resource_name : string)
  : outcome (D (_apiclassmethod.t W)) :=
  a ← Return (apimethod.__init__ "" None
                [("methods", VList [VStr "GET"]); ("no_pks", VBool true)]);
  t ← translate.new None (Some true) [("validate", VBool false)];
  Return (apimethod.__call__ a
            (Fn (translate.__call__ t
                   (Fn (def_ "retrieve_list" (retrieve_list_body resource_name)))))).

(** * Part V. Vocabulary of the properties *)

(** The events of a run of hooks [ps] in registration order: every hook
    returns until, possibly, one raises [e]; the hooks after it are not
    called and [e] is the outcome of the chain. *)
Inductive chain_run (ev : processor -> option exn -> event)
  : list processor -> list event -> outcome unit -> Prop :=
| chain_done : chain_run ev [] [] (Return tt)
| chain_step p ps es o :
    chain_run ev ps es o -> chain_run ev (p :: ps) (ev p None :: es) o
| chain_abort p ps e : chain_run ev (p :: ps) [ev p (Some e)] (Raise e).

(** The world after the hooks [ps] ran in order, each on the world left by
    the one before, up to the first that raises. *)
Fixpoint hooks_world `{World W} (ps : list processor) (pos : list value) (kw : kwargs)
  (w : W) : W :=
  match ps with
  | [] => w
  | p :: ps' =>
      match run_processor p pos kw w with
      | (None, w') => hooks_world ps' pos kw w'
      | (Some _, w') => w'
      end
  end.

(** The call of a pre-processor: [proc(cls, name, request, *args, **kw)]. *)
Definition pre_event (cls : value) (name : string) (request : value)
  (args : list value) (kw : kwargs) (p : processor) (raised : option exn) : event :=
  EvProcessor p ([cls; VStr name; request] ++ args) kw raised.

(** The call of a post-processor:
    [proc(cls, name, request, resource, *args, **kw)]. *)
Definition post_event (cls : value) (name : string) (request : value)
  (args : list value) (kw : kwargs) (resource : value)
  (p : processor) (raised : option exn) : event :=
  EvProcessor p ([cls; VStr name; request; resource] ++ args) kw raised.

(** What a call [r] of the wrapper of [f] on class [c] from state [s]
    looks like: the pre-processors, then [f], then the post-processors. *)
Definition wrapped_shape `{World W} (f : pyobj W) (c : pyclass) (request : value)
  (args : list value) (kw : kwargs) (s : store W) (r : result (store W) value) : Prop :=
  let cls := VType (ResourceClass c) in
  let name := name_of f in
  exists es_pre o_pre,
    chain_run (pre_event cls name request args kw) (preprocessors c) es_pre o_pre /\
    let s1 := set_world s
                (hooks_world (preprocessors c) ([cls; VStr name; request] ++ args) kw
                   (world s)) in
    match o_pre with
    | Raise e =>
        (* a pre-processor raised: the function is not called *)
        res r = Raise e /\ emitted r = es_pre /\ final r = s1
    | Return _ =>
        let rf := call f cls request args kw s1 in
        match res rf with
        | Raise e =>
            (* the function raised: no post-processor is called *)
            res r = Raise e /\ emitted r = es_pre ++ emitted rf /\ final r = final rf
        | Return resource =>
            exists es_post o_post,
              chain_run (post_event cls name request args kw resource)
                (postprocessors c) es_post o_post /\
              emitted r = es_pre ++ emitted rf ++ es_post /\
              final r = set_world (final rf)
                          (hooks_world (postprocessors c)
                             ([cls; VStr name; request; resource] ++ args) kw
                             (world (final rf))) /\
              res r = match o_post with
                      | Return _ => Return resource
                      | Raise e => Raise e
                      end
        end
    end.

(** The field list that a wrapper decorated with [fields] validates or
    translates for class [c]: the decoration-time list, followed by the
    manager's validators when [manager_field_validators] is set. *)
Definition merged_fields (original : list Field) (manager_field_validators : bool)
  (m : Manager) : list Field :=
  if manager_field_validators then original ++ field_validators m else original.

(** ** A small world for examples

    The request is a dict of body arguments.  Every field is required, so
    [validate] raises when a field is absent, unless [skip_required]; the
    hook named [deny] raises; the manager's [create] answers with the body
    arguments and an [id].  The world counts the calls received. *)
Definition has_key (d : list (string * value)) (f : Field) : bool :=
  match f with
  | FieldBase n => existsb (fun kv => String.eqb (fst kv) n) d
  end.

Definition demo_validate (request : value) (fs : list Field) (skip : bool) (w : nat)
  : option exn * nat :=
  match request with
  | VDict d =>
      if skip || forallb (has_key d) fs
      then (None, S w)
      else (Some (Exception "ValidationException" "missing field"), S w)
  | _ => (Some (no_attribute request "validate"), w)
  end.

Definition demo_request_attr (request : value) (name : string) (w : nat) : outcome value :=
  match request with
  | VDict d => if String.eqb name "body_args" then Return (VDict d) else Return (VDict [])
  | _ => Raise (no_attribute request name)
  end.

Definition demo_manager_call (m : Manager) (method : string) (args : list value) (w : nat)
  : outcome value * nat :=
  match args with
  | [VDict d] => (Return (VDict (("id", VInt 1) :: d)), S w)
  | [_; VDict d] => (Return (VDict d), S w)
  | _ => (Raise (Exception "NotFoundException" method), S w)
  end.

Definition demo : World nat :=
  {| run_processor := fun p _ _ w =>
       (if String.eqb p "deny" then Some (Exception "Forbidden" p) else None, S w);
     request_validate := demo_validate;
     request_translate := fun _ _ w => (None, S w);
     request_attr := demo_request_attr;
     manager_call := demo_manager_call |}.

Definition demo_manager : Manager :=
  {| manager_name := "manager";
     field_validators := [FieldBase "name"];
     fields := ["id"; "name"];
     pagination_pk_query_arg := "page";
     pagination_count_query_arg := "count" |}.

(** [class A(ResourceBase)] and [class B(A)] *)
Definition class_A : pyclass :=
  {| __name__ := "A"; __mro__ := ["A"; "ResourceBase"];
     preprocessors := ["log"]; postprocessors := ["audit"];
     manager := Some demo_manager |}.

Definition class_B : pyclass :=
  {| __name__ := "B"; __mro__ := ["B"; "A"; "ResourceBase"];
     preprocessors := ["log"]; postprocessors := ["audit"];
     manager := Some demo_manager |}.

(** A function that answers with the class it was called on. *)
Definition which_class : function nat :=
  def_ "action" (fun cls _ => mret cls).

(** A state of the interpreter in which no [validate] decorator has been
    applied yet. *)
Definition demo_store : store nat :=
  {| world := 0;
     self_obj := validate.__init__ None false false;
     action_obj := {| action_fields := []; action_original_fields := [];
                      action_manager_field_validators := false |} |}.

(** [which_class] decorated with [@apimethod()]. *)
Definition demo_action : _apiclassmethod.t nat :=
  (@apimethod.__call__ nat demo (apimethod.__init__ "" None []) (Fn which_class) []).1.

(** A class without hooks. *)
Definition plain_class (name : string) (m : option Manager) : pyclass :=
  {| __name__ := name; __mro__ := [name; "ResourceBase"];
     preprocessors := []; postprocessors := []; manager := m |}.

(** ** Vocabulary for [validate] *)

(** [fields or []] *)
Definition or_nil (fields : option (list Field)) : list Field :=
  match fields with
  | Some l => l
  | None => []
  end.

(** [cls.manager.field_validators], as a value or the exception raised. *)
Definition manager_validators (cls : value) : outcome (list Field) :=
  match cls with
  | VType (ResourceClass c) =>
      match manager c with
      | Some m => Return (field_validators m)
      | None => Raise (no_attribute VNone "field_validators")
      end
  | _ => Raise (no_attribute cls "manager")
  end.

(** One call [request.validate(fs, skip_required=skip)] from state [s],
    followed by [k] when it returns. *)
Definition validation_step `{World W} (request : value) (fs : list Field) (skip : bool)
  (s : store W) (k : store W -> result (store W) value) : result (store W) value :=
  let rv := request_validate request fs skip (world s) in
  match rv.1 with
  | Some e =>
      {| res := Raise e; final := set_world s rv.2;
         emitted := [EvValidate request fs skip (Some e)] |}
  | None =>
      let rf := k (set_world s rv.2) in
      {| res := res rf; final := final rf;
         emitted := EvValidate request fs skip None :: emitted rf |}
  end.

(** [self.fields = v] on the decorator instance held by [s]. *)
Definition with_self_fields {W} (s : store W) (v : list Field) : store W :=
  set_self s
    {| self_fields := v;
       self_original_fields := self_original_fields (self_obj s);
       self_manager_field_validators := self_manager_field_validators (self_obj s);
       self_skip_required := self_skip_required (self_obj s) |}.

(** The state of a wrapper decorated with [validate(fields,
    manager_field_validators, skip_required)], right after the decoration
    or after any number of calls: the attributes of [action] and the flags
    of the decorator instance are those of the decoration. *)
Definition in_force {W} (original : list Field) (manager_field_validators skip : bool)
  (s : store W) : Prop :=
  action_original_fields (action_obj s) = original /\
  action_fields (action_obj s) = original /\
  action_manager_field_validators (action_obj s) = manager_field_validators /\
  self_original_fields (self_obj s) = Some original /\
  self_manager_field_validators (self_obj s) = manager_field_validators /\
  self_skip_required (self_obj s) = skip.

(** Two states that differ at most in [self.fields]. *)
Definition same_but_self_fields {W} (s s' : store W) : Prop :=
  world s = world s' /\
  action_obj s = action_obj s' /\
  self_original_fields (self_obj s) = self_original_fields (self_obj s') /\
  self_manager_field_validators (self_obj s) = self_manager_field_validators (self_obj s') /\
  self_skip_required (self_obj s) = self_skip_required (self_obj s').

(** A call [action(cls, request, *args, **kw)]. *)
Record invocation := {
  inv_cls : pyclass;
  inv_request : value;
  inv_args : list value;
  inv_kwargs : kwargs
}.

(** A sequence of calls of the same function, each on the state left by
    the one before (an exception goes to the caller, who may call again).
    The answer is what every call returned or raised and the events it
    emitted, and the last state. *)
Fixpoint run_calls {W} (c : code W) (calls : list invocation) (s : store W)
  : list (outcome value * list event) * store W :=
  match calls with
  | [] => ([], s)
  | i :: calls' =>
      let r := c (VType (ResourceClass (inv_cls i))) (inv_request i) (inv_args i)
                 (inv_kwargs i) s in
      let '(outs, s') := run_calls c calls' (final r) in
      ((res r, emitted r) :: outs, s')
  end.

(** What the first event of a call validated against. *)
Definition validates_against (original : list Field) (manager_field_validators skip : bool)
  (i : invocation) (out : outcome value * list event) : Prop :=
  match manager_field_validators, manager (inv_cls i) with
  | true, None => out = (Raise (no_attribute VNone "field_validators"), [])
  | true, Some m =>
      exists raised rest,
        out.2 = EvValidate (inv_request i) (original ++ field_validators m) skip raised :: rest
  | false, _ =>
      exists raised rest,
        out.2 = EvValidate (inv_request i) original skip raised :: rest
  end.

(** ** Vocabulary for [routes] *)

(** [getattr(o, 'routes', [])], read in heap [h]. *)
Definition routes_or_empty {W} (o : pyobj W) (h : heap) : list route_entry :=
  default [] (read_routes o h).

(** Whether [o] has the attribute [routes]. *)
Definition has_routes {W} (o : pyobj W) : bool :=
  bool_decide (is_Some (dict_of o !! "routes")).

(** The [routes] attribute of [o], when present, refers to a list of the
    heap. *)
Definition routes_allocated {W} (o : pyobj W) (h : heap) : Prop :=
  match dict_of o !! "routes" with
  | Some (ARoutes l) => l < length h
  | Some _ => False
  | None => True
  end.

(** ** Classes for examples *)

(** [class X(Create, RetrieveList): manager = ...] *)
Definition class_X : user_class :=
  {| class_name := "X"; class_bases := [Create; RetrieveList];
     class_links := None; class_manager := Some demo_manager |}.

(** [class Pets(CRUDL): _links = (Relationship('owner'),); manager = ...] *)
Definition class_Pets : user_class :=
  {| class_name := "Pets"; class_bases := [CRUDL];
     class_links := Some [ {| rel_name := "owner"; rel_kwargs := [] |} ];
     class_manager := Some demo_manager |}.

(** ** Vocabulary for the further properties *)

(** Running the action that a decorated object stands for: a function is
    called; the object of [apimethod] is reached through its descriptor,
    whose bound function calls [f]. *)
Definition invoke {W} (o : pyobj W) : code W :=
  match o with
  | Fn f => fn_code f
  | Acm a => fn_code (_apiclassmethod.f a)
  end.

(** An event that is not the entry into a function body. *)
Definition not_body (ev : event) : Prop :=
  match ev with
  | EvBody _ _ _ => False
  | _ => True
  end.

(** A piece of code that raises on every call and enters no function
    body. *)
Definition never_runs {W} (c : code W) : Prop :=
  forall cls request args kw s,
    (exists e, res (c cls request args kw s) = Raise e) /\
    Forall not_body (emitted (c cls request args kw s)).

(** The [relation] keyword of a relationship. *)
Definition relation_of (r : Relationship) : option rel_arg :=
  snd <$> find (fun kv => String.eqb kv.1 "relation") (rel_kwargs r).

(** [class Y(RetrieveList, Create): manager = ...] *)
Definition class_Y : user_class :=
  {| class_name := "Y"; class_bases := [RetrieveList; Create];
     class_links := None; class_manager := Some demo_manager |}.

(** The attributes [names] of the request read one after the other on
    world [w]: the values read, or the exception of the first read that
    raises. *)
Fixpoint read_all `{World W} (request : value) (names : list string) (w : W)
  : outcome (list value) :=
  match names with
  | [] => Return []
  | n :: ns =>
      v ← request_attr request n w;
      vs ← read_all request ns w;
      Return (v :: vs)
  end.

(** What a run [r] of the body of the action [name] from state [s] looks
    like when it hands the request attributes [reads] to the method [name]
    of the manager [m] and builds the answer of class [c] from the keyword
    arguments [init props]. *)
Definition delegates_to_manager `{World W} (name : string) (reads : list string)
  (init : value -> kwargs) (c : pyclass) (m : Manager) (request : value)
  (s : store W) (r : result (store W) value) : Prop :=
  let entered := EvBody name [VType (ResourceClass c); request] [] in
  match read_all request reads (world s) with
  | Raise e =>
      (* a read of the request raised: the manager is not called *)
      res r = Raise e /\ emitted r = [entered] /\ final r = s
  | Return vs =>
      let rm := manager_call m name vs (world s) in
      emitted r = [entered; EvManager m name vs rm.1] /\
      final r = set_world s rm.2 /\
      res r = match rm.1 with
              | Raise e => Raise e
              | Return props => Return (VNew (ResourceClass c) (init props))
              end
  end.

(** What a run [r] from state [s] looks like when [request.translate(fs)]
    comes first and, if it returns, a run described by [after] follows on
    the state it left. *)
Definition translates_then `{World W} (fs : list Field) (request : value)
  (after : store W -> result (store W) value -> Prop)
  (s : store W) (r : result (store W) value) : Prop :=
  let rt := request_translate request fs (world s) in
  match rt.1 with
  | Some e =>
      res r = Raise e /\ emitted r = [EvTranslate request fs (Some e)] /\
      final r = set_world s rt.2
  | None =>
      exists rb,
        after (set_world s rt.2) rb /\
        res r = res rb /\ emitted r = EvTranslate request fs None :: emitted rb /\
        final r = final rb
  end.

(** A world for the listing examples: the request is a dict and hands it
    out as its query arguments; the manager answers every call with one
    record and its [meta], and the world counts the manager's calls. *)
Definition listing : World nat :=
  {| run_processor := fun _ _ _ w => (None, w);
     request_validate := fun _ _ _ w => (None, w);
     request_translate := fun _ _ w => (None, w);
     request_attr := fun request name w =>
       match request with
       | VDict d => Return (VDict d)
       | _ => Raise (no_attribute request name)
       end;
     manager_call := fun _ _ _ w =>
       (Return (VList [VList [VDict [("id", VInt 1)]]; VDict [("links", VDict [])]]),
        S w) |}.

(** * Part VI. Proofs *)

(** ** Running the monad *)

Lemma bind_run {S A B} (m : M S A) (k : A -> M S B) (s : S) :
  (m ≫= k) s =
  match res (m s) with
  | Raise e => {| res := Raise e; final := final (m s); emitted := emitted (m s) |}
  | Return a =>
      {| res := res (k a (final (m s)));
         final := final (k a (final (m s)));
         emitted := emitted (m s) ++ emitted (k a (final (m s))) |}
  end.
Proof.
  unfold mbind, M_bind, bind.
  destruct (m s) as [[a|e] s1 es]; cbn; [destruct (k a s1)|]; reflexivity.
Qed.

Lemma lift_call_processor_run `{World W} p pos kw (s : store W) :
  lift (call_processor p pos kw) s =
  {| res := raised_or_unit (run_processor p pos kw (world s)).1;
     final := set_world s (run_processor p pos kw (world s)).2;
     emitted := [EvProcessor p pos kw (run_processor p pos kw (world s)).1] |}.
Proof.
  unfold lift, call_processor. destruct (run_processor p pos kw (world s)); reflexivity.
Qed.

Lemma set_world_world {W} (s : store W) : set_world s (world s) = s.
Proof. destruct s; reflexivity. Qed.

(** ** The processor chain *)

Lemma for_each_chain `{World W} (pos : list value) (kw : kwargs) ps (s : store W) :
  let r := for_each ps (fun p => lift (call_processor p pos kw)) s in
  chain_run (fun p raised => EvProcessor p pos kw raised) ps (emitted r) (res r)
  /\ final r = set_world s (hooks_world ps pos kw (world s)).
Proof.
  set (ev := fun p raised => EvProcessor p pos kw raised).
  revert s. induction ps as [|p ps IH]; intros s.
  - simpl. rewrite set_world_world. split; [constructor | reflexivity].
  - cbn [for_each hooks_world]. cbv zeta. rewrite bind_run, lift_call_processor_run.
    destruct (run_processor p pos kw (world s)) as [[e|] w'];
      cbn [fst snd raised_or_unit res final emitted].
    + split; [apply (chain_abort ev) | reflexivity].
    + destruct (IH (set_world s w')) as (IH1 & IH2).
      split; [apply (chain_step ev); exact IH1 | exact IH2].
Qed.

(** The shape of a call of [wrapped], for use below. *)
Lemma wrapped_has_shape `{World W} (f : pyobj W) (c : pyclass)
  (request : value) (args : list value) (kw : kwargs) (s : store W) :
  wrapped_shape f c request args kw s
    (apimethod.wrapped f (VType (ResourceClass c)) request args kw s).
Proof.
  unfold wrapped_shape, apimethod.wrapped, pre_event, post_event. cbv zeta.
  rewrite bind_run. cbn [getattr_preprocessors mret M_ret ret res final emitted].
  rewrite bind_run.
  destruct (for_each_chain ([VType (ResourceClass c); VStr (name_of f); request] ++ args)
              kw (preprocessors c) s) as (Hpre & Hs1).
  set (rpre := for_each (preprocessors c) _ s) in *.
  exists (emitted rpre), (res rpre). split; [exact Hpre|].
  rewrite <- Hs1.
  destruct (res rpre) as [[]|e]; cbn [res emitted final]; [|auto].
  rewrite bind_run.
  set (rf := call f (VType (ResourceClass c)) request args kw (final rpre)).
  destruct (res rf) as [resource|e]; cbn [res emitted final]; [|auto].
  rewrite bind_run. cbn [getattr_postprocessors mret M_ret ret res final emitted].
  rewrite bind_run.
  destruct (for_each_chain
              ([VType (ResourceClass c); VStr (name_of f); request; resource] ++ args)
              kw (postprocessors c) (final rf)) as (Hpost & Hs2).
  set (rpost := for_each (postprocessors c) _ (final rf)) in *.
  exists (emitted rpost), (res rpost). split; [exact Hpost|].
  rewrite <- Hs2.
  destruct (res rpost) as [[]|e]; cbn [res emitted final]; [|auto].
  rewrite app_nil_r. auto.
Qed.

(** [apimethod.__call__] returns a descriptor around [wrapped], whatever
    the heap of route lists. *)
Lemma apimethod_call_f `{World W} (a : apimethod.t) (f : pyobj W) (h : heap) :
  fn_code (_apiclassmethod.f (apimethod.__call__ a f h).1) = apimethod.wrapped f
  /\ fn_name (_apiclassmethod.f (apimethod.__call__ a f h).1) = name_of f.
Proof.
  unfold apimethod.__call__, _apiclassmethod.__init__, _apiclassmethod.getattr_routes,
    list_append, new_list, mbind, D_bind, mret, D_ret.
  repeat (match goal with
          | |- context [match ?x with _ => _ end] => destruct x
          end; cbn); auto.
Qed.

(** C8. A call of an action that [apimethod] decorated, on a resource
    class: the entries of [cls.preprocessors] are called first, in
    registration order, with [(cls, name, request, *args, **kwargs)]; then
    the underlying function; then the entries of [cls.postprocessors], in
    registration order, with [(cls, name, request, resource, *args,
    **kwargs)]; the result of the function is returned.  The first hook
    that raises ends the chain with its own exception, and when it is a
    pre-processor the function is not called. *)
Theorem apimethod_runs_the_chain `{World W} (a : apimethod.t) (f : pyobj W) (h : heap)
  (c : pyclass) (request : value) (args : list value) (kw : kwargs) (s : store W) :
  let action := _apiclassmethod.f (apimethod.__call__ a f h).1 in
  wrapped_shape f c request args kw s
    (fn_code action (VType (ResourceClass c)) request args kw s).
Proof.
  cbv zeta. destruct (apimethod_call_f a f h) as [-> _]. apply wrapped_has_shape.
Qed.

(** ** The descriptor *)

Lemma get_bound_call {W} (d : _apiclassmethod.t W) (obj : value) (klass : option pytype)
  (h : heap) :
  _apiclassmethod.bound_call (_apiclassmethod.__get__ d obj klass h).1 =
  _apiclassmethod.newfunc (_apiclassmethod.f d)
    (match klass with None => type_of obj | Some k => k end).
Proof.
  unfold _apiclassmethod.__get__, _apiclassmethod.getattr_routes, new_list,
    mbind, D_bind, mret, D_ret.
  repeat (match goal with
          | |- context [match ?x with _ => _ end] => destruct x
          end; cbn); auto.
Qed.

(** C5, as the code has it.  Take an action decorated with [apimethod] in
    the body of a class [A] and read it through a subclass [B] of [A], or
    through an instance of [B]: every read builds a new bound function
    around [B].  Called with a first argument that is not a class (the
    request), the bound function runs the wrapper, and through it the
    underlying function, with [cls = B].  Called with a first argument
    that is a class, it passes that class on as [cls] instead. *)
Theorem bound_function_binds_the_accessing_class `{World W}
  (a : apimethod.t) (f : pyobj W) (h0 h : heap) (A B : pyclass) (id : nat)
  (a0 : value) (rest : list value) (s : store W) :
  __name__ A ∈ __mro__ B ->
  isinstance_type a0 = false ->
  let action := (apimethod.__call__ a f h0).1 in
  exists via_class via_instance,
    getattr_inherited A action B = Return via_class /\
    getattr_inherited_on_instance A action (VInstance (ResourceClass B) id)
      = Return via_instance /\
    _apiclassmethod.bound_call (via_class h).1 (a0 :: rest) [] s
      = apimethod.wrapped f (VType (ResourceClass B)) a0 rest [] s /\
    _apiclassmethod.bound_call (via_instance h).1 (a0 :: rest) [] s
      = apimethod.wrapped f (VType (ResourceClass B)) a0 rest [] s /\
    wrapped_shape f B a0 rest [] s
      (_apiclassmethod.bound_call (via_class h).1 (a0 :: rest) [] s) /\
    (forall (t : pytype) (request : value),
        _apiclassmethod.bound_call (via_class h).1 (VType t :: request :: rest) [] s
        = apimethod.wrapped f (VType t) request rest [] s).
Proof.
  intros Hsub Ha0. cbv zeta.
  unfold getattr_inherited, getattr_inherited_on_instance. cbn [type_of].
  rewrite !bool_decide_eq_true_2 by exact Hsub.
  do 2 eexists. split; [reflexivity|]. split; [reflexivity|].
  unfold getattr_on_class, getattr_on_instance.
  rewrite !get_bound_call. cbn [type_of].
  unfold _apiclassmethod.newfunc. rewrite Ha0. cbn [negb isinstance_type apply_positional].
  destruct (apimethod_call_f a f h0) as [-> _].
  repeat split; auto using wrapped_has_shape.
Qed.

Lemma bound_function_binds_the_accessing_class_witness :
  "A" ∈ __mro__ class_B /\
  isinstance_type (VDict [("name", VStr "x")]) = false /\
  exists via_class,
    getattr_inherited class_A demo_action class_B = Return via_class /\
    res (_apiclassmethod.bound_call (via_class []).1
           [VDict [("name", VStr "x")]] [] demo_store)
    = Return (VType (ResourceClass class_B)).
Proof.
  assert (Hsub : __name__ class_A ∈ __mro__ class_B) by (right; left).
  split; [exact Hsub|]. split; [reflexivity|].
  destruct (@bound_function_binds_the_accessing_class nat demo
              (apimethod.__init__ "" None []) (Fn which_class) [] [] class_A class_B 0
              (VDict [("name", VStr "x")]) [] demo_store Hsub eq_refl)
    as (via_class & via_instance & Hc & _ & Hcall & _).
  exists via_class. split; [exact Hc|].
  unfold demo_action in Hc.
  rewrite Hcall. reflexivity.
Defined.

(** C5, as the claim states it, fails: the action of the base class [A],
    read through the subclass [B] and called as [B.action(A, request)],
    runs the underlying function with [cls = A]. *)
Lemma bound_function_can_bind_another_class :
  exists via_class,
    getattr_inherited class_A demo_action class_B = Return via_class /\
    let r := _apiclassmethod.bound_call (via_class []).1
               [VType (ResourceClass class_A); VDict [("name", VStr "x")]] [] demo_store in
    res r = Return (VType (ResourceClass class_A))
    /\ In (EvBody "action" [VType (ResourceClass class_A); VDict [("name", VStr "x")]] [])
          (emitted r)
    /\ class_A <> class_B.
Proof.
  eexists. split; [reflexivity|]. cbv zeta. split; [reflexivity|]. split.
  - vm_compute. right. left. reflexivity.
  - discriminate.
Qed.

(** C10. The function that the descriptor returns, whether the action was
    read through a class or through an instance, takes positional
    arguments only: a call with a keyword argument raises [TypeError]
    before anything runs.  The wrapper that it would have called does take
    keyword arguments and hands them to the underlying function. *)
Theorem bound_function_refuses_keywords `{World W}
  (a : apimethod.t) (f : pyobj W) (h0 h : heap) (obj : value) (klass : option pytype)
  (args : list value) (k : string) (v : value) (kw : kwargs) (s : store W) :
  let action := (apimethod.__call__ a f h0).1 in
  let bound := (_apiclassmethod.__get__ action obj klass h).1 in
  _apiclassmethod.bound_call bound args ((k, v) :: kw) s
    = {| res := Raise (TypeError ("newfunc() got an unexpected keyword argument '"
                                  +:+ k +:+ "'"));
         final := s; emitted := [] |}
  /\ forall (name : string) (m : option Manager) (request : value),
       let cls := VType (ResourceClass (plain_class name m)) in
       let r := fn_code (_apiclassmethod.f action) cls request args ((k, v) :: kw) s in
       let rf := call f cls request args ((k, v) :: kw) s in
       res r = res rf /\ emitted r = emitted rf /\ final r = final rf.
Proof.
  cbv zeta. rewrite get_bound_call. split; [reflexivity|].
  intros name m request.
  destruct (apimethod_call_f a f h0) as [-> _].
  unfold apimethod.wrapped, mbind, M_bind, bind, mret, M_ret, ret. cbn.
  destruct (call f _ request args ((k, v) :: kw) s) as [[resource|e] s1 es]; cbn; [|auto].
  rewrite !app_nil_r. auto.
Qed.

(** ** [validate] *)

(** One call of the closure of [validate], step by step. *)
Lemma action_run `{World W} (f : pyobj W) (cls request : value) (args : list value)
  (kw : kwargs) (s : store W) (so : list Field) :
  self_original_fields (self_obj s) = Some so ->
  validate.action f cls request args kw s =
  if self_manager_field_validators (self_obj s) then
    match manager_validators cls with
    | Raise e => {| res := Raise e; final := s; emitted := [] |}
    | Return mfv =>
        validation_step request (action_original_fields (action_obj s) ++ mfv)
          (self_skip_required (self_obj s)) (with_self_fields s (so ++ mfv))
          (call f cls request args kw)
    end
  else
    validation_step request (action_original_fields (action_obj s))
      (self_skip_required (self_obj s)) s (call f cls request args kw).
Proof.
  intros Hso.
  destruct s as [w [sf sof smfv sskip] act]. cbn in Hso. subst sof.
  unfold validate.action, validate.read_self, validate.read_self_original_fields,
    validate.read_action, validate.assign_self_fields, getattr_manager_field_validators,
    getattr_manager, manager_validators, validation_step, with_self_fields, lift,
    call_validate, mbind, M_bind, bind, mret, M_ret, ret, raise.
  cbn.
  destruct smfv; cbn.
  - destruct cls as [| | | | | |[c|n]| |]; cbn; try reflexivity.
    destruct (manager c) as [m|]; cbn; [|reflexivity].
    destruct (request_validate request _ _ w) as [[e|] w']; cbn; [reflexivity|].
    destruct (call f _ request args kw _) as [[a|e] s1 es]; reflexivity.
  - destruct (request_validate request _ _ w) as [[e|] w']; cbn; [reflexivity|].
    destruct (call f _ request args kw _) as [[a|e] s1 es]; reflexivity.
Qed.

Lemma action_without_assignment_run `{World W} (f : pyobj W) (cls request : value)
  (args : list value) (kw : kwargs) (s : store W) :
  validate.action_without_assignment f cls request args kw s =
  if self_manager_field_validators (self_obj s) then
    match manager_validators cls with
    | Raise e => {| res := Raise e; final := s; emitted := [] |}
    | Return mfv =>
        validation_step request (action_original_fields (action_obj s) ++ mfv)
          (self_skip_required (self_obj s)) s (call f cls request args kw)
    end
  else
    validation_step request (action_original_fields (action_obj s))
      (self_skip_required (self_obj s)) s (call f cls request args kw).
Proof.
  destruct s as [w [sf sof smfv sskip] act].
  unfold validate.action_without_assignment, validate.read_self, validate.read_action,
    getattr_manager_field_validators, getattr_manager, manager_validators,
    validation_step, lift, call_validate, mbind, M_bind, bind, mret, M_ret, ret, raise.
  cbn.
  destruct smfv; cbn.
  - destruct cls as [| | | | | |[c|n]| |]; cbn; try reflexivity.
    destruct (manager c) as [m|]; cbn; [|reflexivity].
    destruct (request_validate request _ _ w) as [[e|] w']; cbn; [reflexivity|].
    destruct (call f _ request args kw _) as [[a|e] s1 es]; reflexivity.
  - destruct (request_validate request _ _ w) as [[e|] w']; cbn; [reflexivity|].
    destruct (call f _ request args kw _) as [[a|e] s1 es]; reflexivity.
Qed.

(** The decoration leaves the state that [in_force] describes. *)
Lemma loaded_in_force `{World W} (fields : option (list Field)) (mfv skip : bool)
  (f : pyobj W) (w : W) :
  in_force (or_nil fields) mfv skip
    (validate.loaded (validate.__call__ (validate.__init__ fields mfv skip) f) w).
Proof. repeat split. Qed.

(** C6. A call of an action decorated with [validate(fields,
    manager_field_validators, skip_required)]: when
    [manager_field_validators] is false, [request.validate] is called with
    the list fixed at decoration time and [skip_required]; when it is
    true, with that list followed by [cls.manager.field_validators] of the
    class of this call, and the same [skip_required].  Nothing is called
    before it, and the function runs after it only when it returned. *)
Theorem validate_checks_the_decorated_fields `{World W}
  (fields : option (list Field)) (mfv skip : bool) (f : pyobj W)
  (c : pyclass) (m : Manager) (request : value) (args : list value) (kw : kwargs)
  (s : store W) :
  in_force (or_nil fields) mfv skip s ->
  (mfv = true -> manager c = Some m) ->
  let cls := VType (ResourceClass c) in
  let action := validate.func (validate.__call__ (validate.__init__ fields mfv skip) f) in
  let fs := merged_fields (or_nil fields) mfv m in
  let r := fn_code action cls request args kw s in
  (exists rest,
     emitted r = EvValidate request fs skip (request_validate request fs skip (world s)).1
                 :: rest)
  /\ r = validation_step request fs skip (if mfv then with_self_fields s fs else s)
           (call f cls request args kw).
Proof.
  intros (Hao & _ & _ & Hso & Hmfv & Hskip) Hm. cbv zeta.
  change (fn_code (validate.func (validate.__call__ (validate.__init__ fields mfv skip) f)))
    with (validate.action f).
  rewrite (action_run f _ request args kw s _ Hso), Hmfv, Hskip, Hao.
  unfold merged_fields, manager_validators.
  destruct mfv.
  - rewrite (Hm eq_refl). split; [|reflexivity].
    unfold validation_step. cbv zeta.
    cbn [with_self_fields set_self world].
    destruct (request_validate request _ skip (world s)) as [[e|] w']; cbn; eauto.
  - split; [|reflexivity].
    unfold validation_step. cbv zeta.
    destruct (request_validate request _ skip (world s)) as [[e|] w']; cbn; eauto.
Qed.

Lemma validate_checks_the_decorated_fields_witness :
  let fields := Some [FieldBase "a"; FieldBase "b"] in
  let action := validate.func (@validate.__call__ nat demo
                                 (validate.__init__ fields true true) (Fn which_class)) in
  let s := validate.loaded (@validate.__call__ nat demo
                              (validate.__init__ fields true true) (Fn which_class)) 0 in
  let request := VDict [("a", VInt 1)] in
  exists rest,
    emitted (fn_code action (VType (ResourceClass class_A)) request [] [] s)
    = EvValidate request [FieldBase "a"; FieldBase "b"; FieldBase "name"] true None :: rest.
Proof.
  cbv zeta.
  exact (proj1 (@validate_checks_the_decorated_fields nat demo
                  (Some [FieldBase "a"; FieldBase "b"]) true true (Fn which_class)
                  class_A demo_manager (VDict [("a", VInt 1)]) [] []
                  (validate.loaded (@validate.__call__ nat demo
                     (validate.__init__ (Some [FieldBase "a"; FieldBase "b"]) true true)
                     (Fn which_class)) 0)
                  (@loaded_in_force nat demo (Some [FieldBase "a"; FieldBase "b"]) true true
                     (Fn which_class) 0)
                  (fun _ => eq_refl))).
Defined.

Lemma no_attribute_is_AttributeError (v : value) (name : string) :
  exists msg, no_attribute v name = AttributeError msg.
Proof.
  destruct v as [| | | | | |[c|n]|[c|n] ?|[c|n] ?]; cbn; eauto.
Qed.

(** C7. A call of an action decorated with [validate] goes one of three
    ways: an attribute is missing and nothing is called; or
    [request.validate] raises [e], the call raises the same [e] and
    nothing else is called, the function in particular; or
    [request.validate] returns and the function runs next, its outcome
    being the outcome of the call. *)
Theorem validate_failure_skips_the_body `{World W} (v : validate_obj) (f : pyobj W)
  (cls request : value) (args : list value) (kw : kwargs) (s : store W) :
  let action := validate.func (validate.__call__ v f) in
  let r := fn_code action cls request args kw s in
  (exists msg, res r = Raise (AttributeError msg) /\ emitted r = [] /\ final r = s)
  \/ (exists fs skip e,
        (request_validate request fs skip (world s)).1 = Some e /\
        res r = Raise e /\
        emitted r = [EvValidate request fs skip (Some e)] /\
        world (final r) = (request_validate request fs skip (world s)).2 /\
        action_obj (final r) = action_obj s)
  \/ (exists fs skip s1,
        (request_validate request fs skip (world s)).1 = None /\
        world s1 = (request_validate request fs skip (world s)).2 /\
        action_obj s1 = action_obj s /\
        let rf := call f cls request args kw s1 in
        res r = res rf /\
        emitted r = EvValidate request fs skip None :: emitted rf /\
        final r = final rf).
Proof.
  cbv zeta.
  change (fn_code (validate.func (validate.__call__ v f))) with (validate.action f).
  destruct s as [w [sf sof smfv sskip] act].
  unfold validate.action, validate.read_self, validate.read_self_original_fields,
    validate.read_action, validate.assign_self_fields, getattr_manager_field_validators,
    getattr_manager, lift, call_validate, mbind, M_bind, bind, mret, M_ret, ret, raise.
  cbn.
  destruct smfv; cbn.
  - destruct sof as [so|]; cbn; [|left; eauto].
    destruct cls as [| | | | | |[c|n]| |]; cbn;
      try (left; eauto; fail);
      try (left;
           match goal with
           | |- context [no_attribute ?v ?n] =>
               destruct (no_attribute_is_AttributeError v n) as [msg ->]
           end; eauto; fail).
    destruct (manager c) as [m|]; cbn; [|left; eauto].
    destruct (request_validate request (action_original_fields act ++ field_validators m)
                sskip w) as [[e|] w'] eqn:E; cbn.
    + right; left. do 3 eexists. rewrite E. cbn. repeat split.
    + match goal with
      | |- context [call f ?c ?r ?a ?k ?st] => destruct (call f c r a k st) eqn:Ef
      end.
      right; right. do 3 eexists. rewrite E. cbn. rewrite Ef.
      repeat split; reflexivity.
  - destruct (request_validate request (action_original_fields act) sskip w)
      as [[e|] w'] eqn:E; cbn.
    + right; left. do 3 eexists. rewrite E. cbn. repeat split.
    + match goal with
      | |- context [call f ?c ?r ?a ?k ?st] => destruct (call f c r a k st) eqn:Ef
      end.
      right; right. do 3 eexists. rewrite E. cbn. rewrite Ef.
      repeat split; reflexivity.
Qed.

(** A function made by [def_] only sees the world. *)
Lemma def_run {W} (name : string) (body : value -> value -> M W value)
  (cls request : value) (args : list value) (kw : kwargs) (s : store W) :
  call (Fn (def_ name body)) cls request args kw s =
  match args, kw with
  | [], [] =>
      let rb := body cls request (world s) in
      {| res := res rb; final := set_world s (final rb);
         emitted := EvBody name [cls; request] [] :: emitted rb |}
  | _ :: _, _ =>
      {| res := Raise (TypeError (name +:+ "() takes 2 positional arguments but more were given"));
         final := s; emitted := [] |}
  | [], (k, _) :: _ =>
      {| res := Raise (TypeError (name +:+ "() got an unexpected keyword argument '"
                                  +:+ k +:+ "'"));
         final := s; emitted := [] |}
  end.
Proof.
  destruct args as [|a args], kw as [|[k v] kw]; try reflexivity.
Qed.

(** One call of the closure and one call of the closure without the
    assignment, from states that differ at most in [self.fields]. *)
Lemma assignment_step `{World W} (original : list Field) (mfv skip : bool)
  (name : string) (body : value -> value -> M W value) (i : invocation)
  (s s' : store W) :
  in_force original mfv skip s ->
  in_force original mfv skip s' ->
  same_but_self_fields s s' ->
  let cls := VType (ResourceClass (inv_cls i)) in
  let r := validate.action (Fn (def_ name body)) cls (inv_request i) (inv_args i)
             (inv_kwargs i) s in
  let r' := validate.action_without_assignment (Fn (def_ name body)) cls (inv_request i)
              (inv_args i) (inv_kwargs i) s' in
  res r = res r' /\ emitted r = emitted r' /\
  in_force original mfv skip (final r) /\
  in_force original mfv skip (final r') /\
  same_but_self_fields (final r) (final r') /\
  validates_against original mfv skip i (res r, emitted r).
Proof.
  intros Hs Hs' Hrel. cbv zeta.
  pose proof Hs as (Hao & _ & _ & Hso & Hmfv & Hskip).
  pose proof Hs' as (Hao' & _ & _ & _ & Hmfv' & Hskip').
  pose proof Hrel as (Hw & _).
  rewrite (action_run _ _ _ _ _ s _ Hso), action_without_assignment_run.
  rewrite Hmfv, Hmfv', Hskip, Hskip', Hao, Hao'.
  unfold validates_against, manager_validators, validation_step. cbv zeta.
  rewrite !def_run.
  cbn [with_self_fields set_self set_world world self_obj action_obj].
  rewrite <- Hw.
  destruct mfv.
  - destruct (manager (inv_cls i)) as [m|].
    + destruct (request_validate (inv_request i) _ skip (world s)) as [[e|] w'];
        cbn [fst snd res final emitted].
      * repeat split; try apply Hs; try apply Hs'; try apply Hrel; eauto.
      * destruct (inv_args i), (inv_kwargs i) as [|[] ?]; cbn [res final emitted];
          repeat split; try apply Hs; try apply Hs'; try apply Hrel; eauto.
    + cbn [res final emitted]. repeat split; try apply Hs; try apply Hs'; try apply Hrel.
  - destruct (request_validate (inv_request i) _ skip (world s)) as [[e|] w'];
      cbn [fst snd res final emitted].
    + repeat split; try apply Hs; try apply Hs'; try apply Hrel; eauto.
    + destruct (inv_args i), (inv_kwargs i) as [|[] ?]; cbn [res final emitted];
        repeat split; try apply Hs; try apply Hs'; try apply Hrel; eauto.
Qed.

Lemma assignment_simulation `{World W} (original : list Field) (mfv skip : bool)
  (name : string) (body : value -> value -> M W value) (calls : list invocation) :
  forall s s' : store W,
  in_force original mfv skip s ->
  in_force original mfv skip s' ->
  same_but_self_fields s s' ->
  let run := run_calls (validate.action (Fn (def_ name body))) calls s in
  let run' := run_calls (validate.action_without_assignment (Fn (def_ name body)))
                calls s' in
  run.1 = run'.1 /\
  same_but_self_fields run.2 run'.2 /\
  in_force original mfv skip run.2 /\
  Forall2 (validates_against original mfv skip) calls run.1.
Proof.
  induction calls as [|i calls IH]; intros s s' Hs Hs' Hrel; cbv zeta.
  - cbn. auto.
  - cbn [run_calls].
    destruct (assignment_step original mfv skip name body i s s' Hs Hs' Hrel)
      as (Hres & Hem & Hf & Hf' & Hrel' & Hval).
    specialize (IH _ _ Hf Hf' Hrel'). cbv zeta in IH.
    destruct (run_calls (validate.action _) calls _) as [outs s1].
    destruct (run_calls (validate.action_without_assignment _) calls _) as [outs' s1'].
    cbn [fst snd] in *. destruct IH as (-> & IH2 & IH3 & IH4).
    rewrite Hres, Hem. repeat split; try apply IH2; try apply IH3.
    constructor; [|exact IH4]. rewrite <- Hres, <- Hem. exact Hval.
Qed.

(** C9. The statement [self.fields = self.original_fields +
    cls.manager.field_validators] in the closure of [validate] changes
    nothing that a caller can see.  Decorate a function once with the
    closure as it is and once with the closure without that statement, and
    run any sequence of calls, on classes with any managers: every call
    returns or raises the same and emits the same events; the two final
    states differ at most in [self.fields]; every call validates against
    the decoration-time list, followed by the validators of the manager of
    its class when those are asked for; the attributes [fields] and
    [original_fields] of [action] stay what the decoration made them. *)
Theorem self_fields_assignment_is_unobservable `{World W}
  (fields : option (list Field)) (mfv skip : bool)
  (name : string) (body : value -> value -> M W value)
  (calls : list invocation) (w : W) :
  let f := Fn (def_ name body) in
  let v := validate.__init__ fields mfv skip in
  let d := validate.__call__ v f in
  let d' := validate.__call__without_assignment v f in
  let run := run_calls (fn_code (validate.func d)) calls (validate.loaded d w) in
  let run' := run_calls (fn_code (validate.func d')) calls (validate.loaded d' w) in
  run.1 = run'.1 /\
  same_but_self_fields run.2 run'.2 /\
  Forall2 (validates_against (or_nil fields) mfv skip) calls run.1 /\
  action_fields (action_obj run.2) = or_nil fields /\
  action_original_fields (action_obj run.2) = or_nil fields /\
  fn_dict (validate.func d) = fn_dict (validate.func d').
Proof.
  cbv zeta.
  change (fn_code (validate.func (validate.__call__ (validate.__init__ fields mfv skip)
                                    (Fn (def_ name body)))))
    with (validate.action (Fn (def_ name body))).
  change (fn_code (validate.func (validate.__call__without_assignment
                                    (validate.__init__ fields mfv skip)
                                    (Fn (def_ name body)))))
    with (validate.action_without_assignment (Fn (def_ name body))).
  destruct (assignment_simulation (or_nil fields) mfv skip name body calls
              (validate.loaded (validate.__call__ (validate.__init__ fields mfv skip)
                                  (Fn (def_ name body))) w)
              (validate.loaded (validate.__call__without_assignment
                                  (validate.__init__ fields mfv skip)
                                  (Fn (def_ name body))) w))
    as (H1 & H2 & H3 & H4); try (repeat split; fail).
  destruct H3 as (Hao & Haf & _).
  repeat split; try apply H2; auto.
Qed.

(** The assignment is seen by who holds the decorator instance itself: an
    instance applied to a second function after a call of the first hands
    the merged list to the second as its [original_fields]. *)
Remark reused_decorator_sees_the_assignment :
  let v := validate.__init__ (Some [FieldBase "a"]) true false in
  let d1 := @validate.__call__ nat demo v (Fn which_class) in
  let r := fn_code (validate.func d1) (VType (ResourceClass class_A))
             (VDict [("a", VInt 1); ("name", VStr "x")]) [] [] (validate.loaded d1 0) in
  let d2 := @validate.__call__ nat demo (self_obj (final r)) (Fn which_class) in
  action_original_fields (validate.attrs d1) = [FieldBase "a"] /\
  action_original_fields (validate.attrs d2) = [FieldBase "a"; FieldBase "name"].
Proof. split; reflexivity. Qed.

(** ** The [routes] list across decorators *)

Lemma other_key_routes (key : string) (a : attr) (d : gmap string attr) :
  key <> "routes" -> <[key := a]> d !! "routes" = d !! "routes".
Proof. intros Hne. by rewrite lookup_insert_ne. Qed.

(** [validate] and [translate] hand the [routes] attribute on. *)
Lemma validate_keeps_routes `{World W} (v : validate_obj) (f : pyobj W) :
  dict_of (Fn (validate.func (validate.__call__ v f))) !! "routes" = dict_of f !! "routes".
Proof.
  cbn. rewrite !other_key_routes; done.
Qed.

Lemma translate_keeps_routes `{World W} (t : translate.t) (f : pyobj W) :
  dict_of (Fn (translate.__call__ t f)) !! "routes" = dict_of f !! "routes".
Proof.
  cbn. rewrite !other_key_routes; done.
Qed.

(** [apimethod.__call__], spelled out on the heap. *)
Lemma apimethod_call_result `{World W} (a : apimethod.t) (f : pyobj W) (h : heap) :
  let e := (apimethod.route a, apimethod.endpoint a, apimethod.options a) in
  let l := match dict_of f !! "routes" with Some (ARoutes l) => l | _ => length h end in
  let h1 := match dict_of f !! "routes" with Some (ARoutes l) => h | _ => h ++ [[]] end in
  let h2 := match h1 !! l with Some es => <[l := es ++ [e]]> h1 | None => h1 end in
  apimethod.__call__ a f h =
  ({| _apiclassmethod.f :=
        setattr (setattr (wraps f (apimethod.wrapped f)) "__rest_route__" (ABool true))
          "routes" (ARoutes l);
      _apiclassmethod.rest_route := true;
      _apiclassmethod.routes := l |}, h2).
Proof.
  cbv zeta.
  unfold apimethod.__call__, _apiclassmethod.__init__, list_append, mbind, D_bind, mret, D_ret.
  assert (Hg : forall l0 h0,
             _apiclassmethod.getattr_routes
               (fn_dict (setattr (setattr (wraps f (apimethod.wrapped f)) "__rest_route__"
                                    (ABool true)) "routes" (ARoutes l0))) h0 = (l0, h0)).
  { intros l0 h0. unfold _apiclassmethod.getattr_routes, setattr. cbn [fn_dict].
    rewrite lookup_insert_eq. reflexivity. }
  unfold _apiclassmethod.getattr_routes at 1.
  destruct (dict_of f !! "routes") as [[l| | |]|] eqn:E; cbn [mret D_ret new_list].
  all: match goal with
       | |- context [@lookup _ _ _ _ ?i ?hh] =>
           destruct (@lookup _ _ _ _ i hh) eqn:El
       end; rewrite Hg; reflexivity.
Qed.

(** [apimethod] appends its entry to the list of [f], or to a new list. *)
Lemma apimethod_appends `{World W} (a : apimethod.t) (f : pyobj W) (h : heap) :
  routes_allocated f h ->
  let r := apimethod.__call__ a f h in
  routes_allocated (Acm r.1) r.2 /\
  read_routes (Acm r.1) r.2
  = Some (routes_or_empty f h
          ++ [(apimethod.route a, apimethod.endpoint a, apimethod.options a)]).
Proof.
  intros Hwf. cbv zeta. rewrite apimethod_call_result. cbn [fst snd].
  unfold routes_allocated, routes_or_empty, read_routes in *.
  cbn [dict_of].
  unfold _apiclassmethod.__dict__. cbn [_apiclassmethod.f _apiclassmethod.rest_route _apiclassmethod.routes].
  rewrite other_key_routes by done. rewrite other_key_routes by done.
  rewrite lookup_insert_eq.
  destruct (dict_of f !! "routes") as [[l| | |]|] eqn:E; try done.
  - destruct (lookup_lt_is_Some_2 h l Hwf) as [es Hes]. rewrite Hes.
    rewrite length_insert, list_lookup_insert_eq by exact Hwf. auto.
  - rewrite lookup_app_r by lia. rewrite Nat.sub_diag. cbn [lookup list_lookup].
    rewrite length_insert, length_app.
    rewrite list_lookup_insert_eq by (rewrite length_app; cbn; lia).
    cbn. split; [lia|reflexivity].
Qed.

Lemma apply_layer_routes `{World W} (l : layer) (f : pyobj W) (h : heap) :
  routes_allocated f h ->
  let r := apply_layer l f h in
  routes_allocated r.1 r.2 /\
  routes_or_empty r.1 r.2 = routes_or_empty f h ++ entry_of l /\
  has_routes r.1 = has_routes f || is_apimethod l.
Proof.
  intros Hwf. destruct l as [a|v|t]; cbv zeta.
  - destruct (apimethod_appends a f h Hwf) as (Hwf' & Hread).
    unfold apply_layer, mbind, D_bind, mret, D_ret.
    destruct (apimethod.__call__ a f h) as [o h'] eqn:E. cbn [fst snd] in *.
    split; [exact Hwf'|]. split.
    + unfold routes_or_empty at 1. rewrite Hread. reflexivity.
    + rewrite orb_true_r. unfold has_routes. apply bool_decide_eq_true.
      unfold read_routes in Hread. destruct (dict_of (Acm o) !! "routes"); [eauto|done].
  - cbn [apply_layer mret D_ret fst snd entry_of is_apimethod].
    unfold routes_allocated, routes_or_empty, read_routes, has_routes in *.
    rewrite validate_keeps_routes, app_nil_r, orb_false_r. auto.
  - cbn [apply_layer mret D_ret fst snd entry_of is_apimethod].
    unfold routes_allocated, routes_or_empty, read_routes, has_routes in *.
    rewrite translate_keeps_routes, app_nil_r, orb_false_r. auto.
Qed.

Lemma decorate_routes `{World W} (ls : list layer) :
  forall (f : pyobj W) (h : heap),
  routes_allocated f h ->
  let r := decorate ls f h in
  routes_allocated r.1 r.2 /\
  routes_or_empty r.1 r.2 = routes_or_empty f h ++ flat_map entry_of ls /\
  has_routes r.1 = has_routes f || existsb is_apimethod ls.
Proof.
  induction ls as [|l ls IH]; intros f h Hwf; cbv zeta.
  - cbn. rewrite app_nil_r, orb_false_r. auto.
  - cbn [decorate flat_map existsb]. unfold mbind, D_bind.
    destruct (apply_layer_routes l f h Hwf) as (Hwf' & Hr & Hh).
    destruct (apply_layer l f h) as [f' h']. cbn [fst snd] in *.
    destruct (IH f' h' Hwf') as (IH1 & IH2 & IH3).
    split; [exact IH1|]. split.
    + rewrite IH2, Hr, app_assoc. reflexivity.
    + rewrite IH3, Hh, orb_assoc. reflexivity.
Qed.

Lemma with_routes_allocated {W} (name : string) (body : value -> value -> M W value)
  (es : option (list route_entry)) (h : heap) :
  let r := with_routes (def_ name body) es h in
  routes_allocated (Fn r.1) r.2 /\
  read_routes (Fn r.1) r.2 = es.
Proof.
  destruct es as [es|]; cbv zeta.
  - unfold routes_allocated, read_routes. cbn -[insert lookup].
    rewrite lookup_insert_eq, length_app. cbn. split; [lia|].
    rewrite lookup_app_r by lia. by rewrite Nat.sub_diag.
  - unfold routes_allocated, read_routes. cbn -[lookup]. by rewrite lookup_empty.
Qed.

(** C4. Take one function, with or without a [routes] list of its own,
    and apply to it any sequence of [validate], [translate] and
    [apimethod] decorators, innermost first.  The [routes] list of the
    object that comes out is the list the function had followed by one
    entry [(route, endpoint, options)] per [apimethod], in the order of
    application: none is lost, none comes twice.  The attribute exists as
    soon as the function had it or one of the decorators is an
    [apimethod]. *)
Theorem routes_follow_the_stack `{World W} (ls : list layer)
  (name : string) (body : value -> value -> M W value)
  (es : option (list route_entry)) (h : heap) :
  let start := with_routes (def_ name body) es h in
  let r := decorate ls (Fn start.1) start.2 in
  read_routes r.1 r.2
  = (if bool_decide (is_Some es) || existsb is_apimethod ls
     then Some (default [] es ++ flat_map entry_of ls)
     else None)
  /\ length (routes_or_empty r.1 r.2)
     = length (default [] es) + length (filter (fun l => is_apimethod l = true) ls).
Proof.
  cbv zeta.
  destruct (with_routes_allocated name body es h) as (Hwf & Hes).
  destruct (with_routes (def_ name body) es h) as [f0 h0]. cbn [fst snd] in *.
  destruct (decorate_routes ls (Fn f0) h0 Hwf) as (Hwf' & Hr & Hh).
  destruct (decorate ls (Fn f0) h0) as [o h1]. cbn [fst snd] in *.
  assert (Hhas0 : has_routes (Fn f0) = bool_decide (is_Some es)).
  { unfold has_routes, read_routes, routes_allocated in *.
    apply bool_decide_ext.
    destruct (dict_of (Fn f0) !! "routes") as [[l| | |]|]; try done.
    - rewrite <- Hes. split; [intros _|eauto]. by apply lookup_lt_is_Some_2.
    - rewrite <- Hes. split; intros [? ?]; done. }
  rewrite Hhas0 in Hh.
  unfold routes_or_empty in Hr. rewrite Hes in Hr.
  split.
  - unfold routes_or_empty, read_routes, has_routes, routes_allocated in *.
    destruct (dict_of o !! "routes") as [[l| | |]|] eqn:E; try done.
    + rewrite <- Hh. rewrite bool_decide_eq_true_2 by eauto.
      destruct (lookup_lt_is_Some_2 h1 l Hwf') as [x Hx].
      rewrite Hx in *. cbn in Hr. by rewrite Hr.
    + rewrite <- Hh. rewrite bool_decide_eq_false_2; [done|]. by intros [? ?].
  - unfold routes_or_empty. rewrite Hr, length_app. f_equal.
    clear. induction ls as [|[a|v|t] ls IH]; [reflexivity|..];
      cbn [flat_map entry_of app length].
    + rewrite filter_cons_True by done. cbn [length]. by rewrite IH.
    + rewrite filter_cons_False by done. exact IH.
    + rewrite filter_cons_False by done. exact IH.
Qed.

(** ** The method resolution order *)

Lemma good_head_spec (seqs : list (list mixin)) (x : mixin) :
  good_head seqs = Some x ->
  (exists s, s ∈ seqs /\ head s = Some x) /\
  (forall s, s ∈ seqs -> x ∉ tail s).
Proof.
  unfold good_head. intros Hfind.
  apply find_some in Hfind as [Hin Hnot]. split.
  - apply list_elem_of_In, list_elem_of_omap in Hin. exact Hin.
  - intros s Hs Hx. apply negb_true_iff in Hnot.
    assert (in_a_tail x seqs = true) as Htrue; [|congruence].
    apply existsb_exists. exists s. split; [by apply list_elem_of_In|].
    by apply bool_decide_eq_true.
Qed.

Lemma drop_head_cases (x : mixin) (s : list mixin) :
  s = x :: drop_head x s \/ (drop_head x s = s /\ head s <> Some x).
Proof.
  destruct s as [|y t]; cbn.
  - right. split; [done|discriminate].
  - destruct (decide (y = x)) as [->|Hne]; [by left|].
    right. split; [done|]. intros [= ?]. done.
Qed.

(** What the merge returns: every input sequence keeps its order in the
    result, no class comes twice, and every class of the result comes from
    an input sequence. *)
Lemma merge_spec (n : nat) :
  forall (seqs : list (list mixin)) (ms : list mixin),
  merge n seqs = Some ms ->
  (forall s, s ∈ seqs -> s `sublist_of` ms) /\
  NoDup ms /\
  (forall y, y ∈ ms -> exists s, s ∈ seqs /\ y ∈ s).
Proof.
  induction n as [|n IH]; intros seqs ms Hm.
  - cbn in Hm. destruct (filter nonempty seqs) as [|s0 F] eqn:EF; [|done].
    injection Hm as <-. split; [|split].
    + intros s Hs. destruct s as [|y t]; [done|].
      assert (y :: t ∈ filter nonempty seqs) as Hin by (apply list_elem_of_filter; done).
      rewrite EF in Hin. by apply elem_of_nil in Hin.
    + constructor.
    + intros y Hy. by apply elem_of_nil in Hy.
  - cbn [merge] in Hm. destruct (filter nonempty seqs) as [|s0 F] eqn:EF.
    + injection Hm as <-. split; [|split].
      * intros s Hs. destruct s as [|y t]; [done|].
        assert (y :: t ∈ filter nonempty seqs) as Hin by (apply list_elem_of_filter; done).
        rewrite EF in Hin. by apply elem_of_nil in Hin.
      * constructor.
      * intros y Hy. by apply elem_of_nil in Hy.
    + rewrite <- EF in Hm.
      destruct (good_head (filter nonempty seqs)) as [x|] eqn:Eg; [|done].
      cbn in Hm.
      destruct (merge n (map (drop_head x) (filter nonempty seqs))) as [rest|] eqn:Er;
        [|done].
      injection Hm as <-.
      destruct (good_head_spec _ _ Eg) as ((sx & Hsx & Hhead) & Htail).
      destruct (IH _ _ Er) as (Hsub & Hnd & Hfrom).
      assert (Hdrop : forall s, s ∈ filter nonempty seqs -> drop_head x s `sublist_of` rest).
      { intros s Hs. apply Hsub, list_elem_of_fmap. eauto. }
      split; [|split].
      * intros s Hs. destruct s as [|y t]; [apply sublist_nil_l|].
        assert (y :: t ∈ filter nonempty seqs) as Hin by (apply list_elem_of_filter; done).
        specialize (Hdrop _ Hin).
        destruct (drop_head_cases x (y :: t)) as [Heq|[Heq _]].
        -- rewrite Heq. by apply sublist_skip.
        -- rewrite Heq in Hdrop. by apply sublist_cons.
      * constructor; [|exact Hnd]. intros Hx.
        destruct (Hfrom _ Hx) as (s' & Hs' & Hxs').
        apply list_elem_of_fmap in Hs' as (s & -> & Hs).
        specialize (Htail _ Hs).
        destruct (drop_head_cases x s) as [Heq|[Heq _]].
        -- rewrite Heq in Htail. cbn in Htail. done.
        -- rewrite Heq in Hxs'. destruct s as [|y t]; [by apply elem_of_nil in Hxs'|].
           cbn in Htail. apply elem_of_cons in Hxs' as [->|?]; [|done].
           cbn in Heq. by rewrite decide_True in Heq; [apply (f_equal length) in Heq; cbn in Heq; lia|].
      * intros y Hy. apply elem_of_cons in Hy as [->|Hy].
        -- exists sx. split.
           ++ by apply list_elem_of_filter in Hsx as [_ ?].
           ++ destruct sx as [|z t]; [done|]. injection Hhead as ->. left.
        -- destruct (Hfrom _ Hy) as (s' & Hs' & Hys').
           apply list_elem_of_fmap in Hs' as (s & -> & Hs).
           exists s. split.
           ++ by apply list_elem_of_filter in Hs as [_ ?].
           ++ destruct (drop_head_cases x s) as [Heq|[Heq _]].
              ** rewrite Heq. by right.
              ** by rewrite Heq in Hys'.
Qed.

(** The resolution orders of the classes of restmixins.py. *)
Lemma mro_defined (b : mixin) : exists p, mro b = Some (b :: p).
Proof. destruct b; vm_compute; eauto. Qed.

Lemma mro_ends_in_ResourceBase (b : mixin) (p : list mixin) :
  mro b = Some p -> ResourceBase ∈ p.
Proof.
  destruct b; vm_compute; intros [= <-]; repeat first [left | right].
Qed.

Ltac solve_sublist :=
  repeat first [ apply sublist_nil_l | apply sublist_skip | apply sublist_cons ].

Lemma mro_above_ResourceBase (b x : mixin) (p : list mixin) :
  mro b = Some p -> x ∈ p -> x <> ResourceBase -> [x; ResourceBase] `sublist_of` p.
Proof.
  intros Hp Hx Hne.
  destruct b; vm_compute in Hp; injection Hp as <-;
    repeat (apply elem_of_cons in Hx as [->|Hx]; [try done; solve_sublist|]);
    by apply elem_of_nil in Hx.
Qed.

Lemma mro_with_CRUDL (b : mixin) (p : list mixin) :
  mro b = Some p -> CRUDL ∈ p ->
  [CRUDL; Create; RetrieveList; ResourceBase] `sublist_of` p.
Proof.
  intros Hp Hx.
  destruct b; vm_compute in Hp; injection Hp as <-;
    repeat (apply elem_of_cons in Hx as [[=]|Hx]); try (by apply elem_of_nil in Hx).
  solve_sublist.
Qed.

(** The resolution order of a user class: the order of every base is kept,
    no class comes twice, and every class comes from a base. *)
Lemma user_mro_spec (u : user_class) (ms : list mixin) :
  mro_of (User u) = Some ms ->
  NoDup ms /\
  (forall b, b ∈ class_bases u -> exists p, mro b = Some p /\ p `sublist_of` ms) /\
  (forall y, y ∈ ms -> exists b p, b ∈ class_bases u /\ mro b = Some p /\ y ∈ p).
Proof.
  cbn [mro_of]. intros Hm.
  destruct (mapM mro (class_bases u)) as [parents|] eqn:Ep; [|done].
  cbn in Hm. unfold c3 in Hm.
  apply merge_spec in Hm as (Hsub & Hnd & Hfrom).
  apply mapM_Some_1 in Ep.
  split; [exact Hnd|]. split.
  - intros b Hb.
    apply list_elem_of_lookup in Hb as [i Hi].
    destruct (Forall2_lookup_l _ _ _ _ _ Ep Hi) as (p & Hp & Hmro).
    exists p. split; [exact Hmro|].
    apply Hsub, elem_of_app. left. by eapply list_elem_of_lookup_2.
  - intros y Hy. destruct (Hfrom _ Hy) as (s & Hs & Hys).
    apply elem_of_app in Hs as [Hs|Hs].
    + apply list_elem_of_lookup in Hs as [i Hi].
      destruct (Forall2_lookup_r _ _ _ _ _ Ep Hi) as (b & Hb & Hmro).
      exists b, s. split; [by eapply list_elem_of_lookup_2|]. done.
    + apply list_elem_of_singleton in Hs as ->.
      destruct (mro_defined y) as [p Hp].
      exists y, (y :: p). split; [done|]. split; [done|left].
Qed.

(** ** The accumulated links *)

Lemma omap_all_None {A} (own : mixin -> option A) (k : list mixin) :
  (forall y, y ∈ k -> own y = None) -> omap own k = [].
Proof.
  induction k as [|y k IH]; intros Hk; [done|].
  cbn. rewrite (Hk y) by left. apply IH. intros z Hz. apply Hk. by right.
Qed.

(** Attribute lookup on a user class finds the first definition of its
    resolution order. *)
Lemma getattr_first {A} (own : mixin -> option A) (what : string) (u : user_class)
  (k1 k2 : list mixin) (x : mixin) (a : A) :
  mro_of (User u) = Some (k1 ++ x :: k2) ->
  (forall y, y ∈ k1 -> own y = None) ->
  own x = Some a ->
  getattr_class own what (User u) = Return a.
Proof.
  intros Hm Hk1 Hx. unfold getattr_class. rewrite Hm.
  rewrite omap_app, (omap_all_None own k1 Hk1). cbn. by rewrite Hx.
Qed.

Lemma own_links_elsewhere (y : mixin) :
  y <> ResourceBase -> y <> Create -> y <> RetrieveList -> y <> CRUDL ->
  own_links y = None.
Proof. destruct y; done. Qed.

Lemma own_get_base_links_elsewhere (y : mixin) :
  y <> Create -> y <> RetrieveList -> own_get_base_links y = None.
Proof. destruct y; done. Qed.

Lemma base_links_elsewhere (y : mixin) (cls : class) :
  y <> Create -> y <> RetrieveList -> base_links_of y cls = [].
Proof. destruct y; done. Qed.

Lemma flat_map_no_base_links (cls : class) (ms : list mixin) :
  Create ∉ ms -> RetrieveList ∉ ms ->
  flat_map (fun m => base_links_of m cls) ms = [].
Proof.
  induction ms as [|y ms IH]; intros HC HR; [done|].
  apply not_elem_of_cons in HC as [? ?]. apply not_elem_of_cons in HR as [? ?].
  cbn. rewrite base_links_elsewhere by done. by apply IH.
Qed.

Lemma flat_map_one_base_links (cls : class) (x : mixin) (ms : list mixin) :
  NoDup ms -> x ∈ ms ->
  (forall y, y ∈ ms -> y <> x -> y <> Create /\ y <> RetrieveList) ->
  flat_map (fun m => base_links_of m cls) ms = base_links_of x cls.
Proof.
  induction ms as [|y ms IH]; intros Hnd Hx Hothers.
  - by apply elem_of_nil in Hx.
  - apply NoDup_cons in Hnd as [Hy Hnd]. cbn.
    apply elem_of_cons in Hx as [->|Hx].
    + rewrite flat_map_no_base_links; [by rewrite app_nil_r|..].
      * intros HC. destruct (Hothers Create); [by right|congruence|done].
      * intros HR. destruct (Hothers RetrieveList) as [_ ?]; [by right|congruence|done].
    + assert (y <> x) as Hne by congruence.
      destruct (Hothers y) as [? ?]; [left|done|].
      rewrite base_links_elsewhere by done. cbn.
      apply IH; [done..|]. intros z Hz. apply Hothers. by right.
Qed.

Lemma flat_map_two_base_links (cls : class) (ms : list mixin) :
  NoDup ms -> [Create; RetrieveList] `sublist_of` ms ->
  flat_map (fun m => base_links_of m cls) ms
  = Create_get_base_links cls ++ RetrieveList_get_base_links cls.
Proof.
  induction ms as [|y ms IH]; intros Hnd Hsub.
  - by apply sublist_nil_r in Hsub.
  - apply NoDup_cons in Hnd as [Hy Hnd].
    apply sublist_cons_r in Hsub as [Hsub|(l' & [= <- <-] & Hsub)].
    + assert (Create ∈ ms) by (eapply elem_of_sublist; [|exact Hsub]; left).
      assert (RetrieveList ∈ ms)
        by (eapply elem_of_sublist; [|exact Hsub]; right; left).
      cbn [flat_map]. rewrite base_links_elsewhere by congruence. by apply IH.
    + apply singleton_sublist_l in Hsub. cbn [flat_map]. f_equal.
      rewrite (flat_map_one_base_links cls RetrieveList); [done..|].
      intros z Hz Hne. split; congruence.
Qed.

(** In a list without repetition, what comes after [x] is not before it. *)
Lemma split_before (ms : list mixin) (x : mixin) (after : list mixin) :
  NoDup ms -> (x :: after) `sublist_of` ms ->
  exists k1 k2, ms = k1 ++ x :: k2 /\ (x ∉ k1) /\ (forall y, y ∈ after -> y ∉ k1).
Proof.
  intros Hnd Hsub. apply sublist_cons_l in Hsub as (k1 & k2 & -> & Hafter).
  exists k1, k2. split; [done|].
  apply NoDup_app in Hnd as (_ & Hdisj & _). split.
  - intros Hx. apply (Hdisj x Hx). left.
  - intros y Hy Hk1. apply (Hdisj y Hk1). right.
    eapply elem_of_sublist; [exact Hy | exact Hafter].
Qed.

(** The class statements of restmixins.py: for each of them [links] is the
    declared [_links] followed by the base links of its resolution order. *)
Lemma repo_links_accumulate (m : mixin) :
  exists ms, mro m = Some ms /\ links (Repo m) = Return (accumulated_links (Repo m) ms).
Proof. destruct m; eexists; split; reflexivity. Qed.

Lemma CRUDL_links_eq (cls : class) :
  CRUDL_links cls
  = Return (or_empty (declared_links cls)
            ++ Create_get_base_links cls ++ RetrieveList_get_base_links cls).
Proof. reflexivity. Qed.

Lemma Create_links_eq (cls : class) :
  Create_links cls = Return (or_empty (declared_links cls) ++ Create_get_base_links cls).
Proof. reflexivity. Qed.

(** A user class keeps the order of its bases' resolution orders. *)
Lemma user_mro_keeps (u : user_class) (ms : list mixin) (x : mixin) (l : list mixin) :
  mro_of (User u) = Some ms ->
  x ∈ ms ->
  (forall b p, mro b = Some p -> x ∈ p -> l `sublist_of` p) ->
  l `sublist_of` ms.
Proof.
  intros Hm Hx Hl.
  destruct (user_mro_spec u ms Hm) as (_ & Hsub & Hfrom).
  destruct (Hfrom x Hx) as (b & p & Hb & Hp & Hxp).
  destruct (Hsub b Hb) as (p' & Hp' & Hsubp).
  rewrite Hp in Hp'. injection Hp' as <-.
  etrans; [|exact Hsubp]. by eapply Hl.
Qed.

Ltac solve_elem :=
  first [ by (apply elem_of_app; right; left)
        | by repeat first [apply list_elem_of_here | apply list_elem_of_further] ].

Lemma user_links_accumulate (u : user_class) (ms : list mixin) :
  mro_of (User u) = Some ms ->
  class_bases u <> [] ->
  CRUDL ∈ ms \/ Create ∉ ms \/ RetrieveList ∉ ms ->
  links (User u) = Return (accumulated_links (User u) ms).
Proof.
  intros Hm Hbases Hcond.
  destruct (user_mro_spec u ms Hm) as (Hnd & Hsub & Hfrom).
  assert (HRB : ResourceBase ∈ ms).
  { destruct (class_bases u) as [|b bs] eqn:Eb; [done|].
    destruct (Hsub b) as (p & Hp & Hpms); [left|].
    eapply elem_of_sublist; [|exact Hpms]. by eapply mro_ends_in_ResourceBase. }
  assert (Habove : forall x, x ∈ ms -> x <> ResourceBase ->
                             [x; ResourceBase] `sublist_of` ms).
  { intros x Hx Hne. eapply (user_mro_keeps u ms x); [done..|].
    intros b p Hp Hxp. by eapply mro_above_ResourceBase. }
  unfold links, accumulated_links. cbn [declared_links].
  destruct (decide (CRUDL ∈ ms)) as [HC|HC].
  - (* the class descends from CRUDL *)
    assert (Hall : [CRUDL; Create; RetrieveList; ResourceBase] `sublist_of` ms).
    { eapply (user_mro_keeps u ms CRUDL); [done..|].
      intros b p Hp Hxp. by eapply mro_with_CRUDL. }
    destruct (split_before ms _ _ Hnd Hall) as (k1 & k2 & -> & Hk1 & Hafter).
    rewrite (getattr_first own_links "links" u k1 k2 CRUDL CRUDL_links Hm); [|..|done].
    + cbn [mbind outcome_bind]. rewrite CRUDL_links_eq. cbn [declared_links].
      do 2 f_equal. symmetry. apply flat_map_two_base_links; [done|].
      etrans; [|exact Hall]. solve_sublist.
    + intros y Hy. apply own_links_elsewhere; intros ->.
      * eapply Hafter; [|exact Hy]. solve_elem.
      * eapply Hafter; [|exact Hy]. solve_elem.
      * eapply Hafter; [|exact Hy]. solve_elem.
      * by apply Hk1.
  - destruct (decide (Create ∈ ms)) as [HCr|HCr].
    + (* Create without RetrieveList *)
      assert (HRL : RetrieveList ∉ ms) by (destruct Hcond as [?|[?|?]]; done).
      destruct (split_before ms _ _ Hnd (Habove Create HCr ltac:(done)))
        as (k1 & k2 & -> & Hk1 & Hafter).
      rewrite (getattr_first own_links "links" u k1 k2 Create Create_links Hm); [|..|done].
      * cbn [mbind outcome_bind]. rewrite Create_links_eq. cbn [declared_links].
        do 2 f_equal. symmetry.
        apply (flat_map_one_base_links (User u) Create); [done|solve_elem|].
        intros y Hy Hne. split; [done|]. by intros ->.
      * intros y Hy. apply own_links_elsewhere; intros ->.
        -- eapply Hafter; [|exact Hy]. solve_elem.
        -- by apply Hk1.
        -- apply HRL, elem_of_app. by left.
        -- apply HC, elem_of_app. by left.
    + destruct (decide (RetrieveList ∈ ms)) as [HRL|HRL].
      * (* RetrieveList without Create *)
        destruct (split_before ms _ _ Hnd (Habove RetrieveList HRL ltac:(done)))
          as (k1 & k2 & -> & Hk1 & Hafter).
        rewrite (getattr_first own_links "links" u k1 k2 RetrieveList RetrieveList_links Hm);
          [|..|done].
        -- cbn [mbind outcome_bind]. unfold RetrieveList_links.
           rewrite (getattr_first own_get_base_links "get_base_links" u k1 k2 RetrieveList
                      RetrieveList_get_base_links Hm); [|..|done].
           ++ cbn [mbind outcome_bind declared_links]. do 2 f_equal. symmetry.
              apply (flat_map_one_base_links (User u) RetrieveList); [done|solve_elem|].
              intros y Hy Hne. split; [|done]. by intros ->.
           ++ intros y Hy. apply own_get_base_links_elsewhere; intros ->.
              ** apply HCr, elem_of_app. by left.
              ** by apply Hk1.
        -- intros y Hy. apply own_links_elsewhere; intros ->.
           ++ eapply Hafter; [|exact Hy]. solve_elem.
           ++ apply HCr, elem_of_app. by left.
           ++ by apply Hk1.
           ++ apply HC, elem_of_app. by left.
      * (* neither *)
        apply list_elem_of_split in HRB as (k1 & k2 & ->).
        assert (ResourceBase ∉ k1).
        { apply NoDup_app in Hnd as (_ & Hdisj & _). intros H. apply (Hdisj _ H). left. }
        rewrite (getattr_first own_links "links" u k1 k2 ResourceBase ResourceBase_links Hm);
          [|..|done].
        -- cbn [mbind outcome_bind]. unfold ResourceBase_links. cbn [declared_links].
           rewrite flat_map_no_base_links by done. by rewrite app_nil_r.
        -- intros y Hy. apply own_links_elsewhere; intros ->.
           ++ done.
           ++ apply HCr, elem_of_app. by left.
           ++ apply HRL, elem_of_app. by left.
           ++ apply HC, elem_of_app. by left.
Qed.

(** C1, as the code has it.  For every class of restmixins.py, and for
    every class that inherits from them with a consistent resolution order
    and either descends from [CRUDL] or does not combine [Create] with
    [RetrieveList], [links] is the declared [_links] followed by the base
    links of each class of the resolution order, each once.  In particular
    the links of [CRUDL] are the [created] link of [Create] and the [next]
    and [previous] links of [RetrieveList]. *)
Theorem links_accumulate_where_remerged :
  (forall m, exists ms,
      mro m = Some ms /\ links (Repo m) = Return (accumulated_links (Repo m) ms))
  /\ (forall u ms,
        mro_of (User u) = Some ms ->
        class_bases u <> [] ->
        CRUDL ∈ ms \/ Create ∉ ms \/ RetrieveList ∉ ms ->
        NoDup ms /\ links (User u) = Return (accumulated_links (User u) ms))
  /\ links (Repo CRUDL)
     = Return (Create_get_base_links (Repo CRUDL)
               ++ RetrieveList_get_base_links (Repo CRUDL)).
Proof.
  split; [exact repo_links_accumulate|]. split; [|reflexivity].
  intros u ms Hm Hbases Hcond. split.
  - by destruct (user_mro_spec u ms Hm) as (Hnd & _).
  - by apply user_links_accumulate.
Qed.

Lemma links_accumulate_where_remerged_witness :
  let ms := [CRUDL; Create; RetrieveRetrieveList; RetrieveList; Retrieve; Update; Delete;
             ResourceBase] in
  mro_of (User class_Pets) = Some ms /\
  links (User class_Pets)
  = Return ([ {| rel_name := "owner"; rel_kwargs := [] |} ]
            ++ Create_get_base_links (User class_Pets)
            ++ RetrieveList_get_base_links (User class_Pets)).
Proof.
  cbv zeta. split; [reflexivity|].
  refine (eq_trans (proj2 (proj1 (proj2 links_accumulate_where_remerged) class_Pets _
                             eq_refl _ _)) eq_refl).
  - discriminate.
  - left. left.
Defined.

(** C1, as the claim states it, fails: a class that lists [Create] and
    [RetrieveList] as bases gets the [links] of [Create], the first
    definition of its resolution order; the [next] and [previous] links of
    [RetrieveList] are not in it. *)
Lemma links_drop_a_sibling :
  let ms := [Create; RetrieveList; ResourceBase] in
  mro_of (User class_X) = Some ms /\
  links (User class_X) = Return (Create_get_base_links (User class_X)) /\
  links (User class_X) <> Return (accumulated_links (User class_X) ms) /\
  accumulated_links (User class_X) ms
  = Create_get_base_links (User class_X) ++ RetrieveList_get_base_links (User class_X).
Proof.
  cbv zeta. split; [reflexivity|]. split; [reflexivity|]. split; [|reflexivity].
  vm_compute. discriminate.
Qed.

(** ** [translate] and the actions of the mixins *)

(** The closure of [translate] calls [request.translate] once, or raises
    before it, and then the function: it never calls [request.validate]
    and has no [skip_required]. *)
Lemma translate_action_events `{World W} (t : translate.t) (f : pyobj W)
  (cls request : value) (args : list value) (kw : kwargs) (s : store W) :
  let r := fn_code (translate.__call__ t f) cls request args kw s in
  (emitted r = [] /\ exists e, res r = Raise e)
  \/ (exists fs e, emitted r = [EvTranslate request fs (Some e)] /\ res r = Raise e)
  \/ (exists fs s1,
        let rf := call f cls request args kw s1 in
        emitted r = EvTranslate request fs None :: emitted rf /\ res r = res rf).
Proof.
  cbv zeta.
  change (fn_code (translate.__call__ t f))
    with (translate.action t (translate.fields t) f).
  unfold translate.action, getattr_manager_field_validators, getattr_manager, lift,
    call_translate, mbind, M_bind, bind, mret, M_ret, ret, raise.
  destruct (translate.manager_field_validators t); cbn.
  - destruct cls as [| | | | | |[c|n]| |]; cbn; try (left; eauto; fail).
    destruct (manager c) as [m|]; cbn; [|left; eauto].
    destruct (request_translate request _ (world s)) as [[e|] w'] eqn:E; cbn.
    + right; left. eauto.
    + match goal with
      | |- context [call f ?c ?r ?a ?k ?st] => destruct (call f c r a k st) eqn:Ef
      end.
      right; right. do 2 eexists. rewrite Ef. cbn. split; reflexivity.
  - destruct (request_translate request _ (world s)) as [[e|] w'] eqn:E; cbn.
    + right; left. eauto.
    + match goal with
      | |- context [call f ?c ?r ?a ?k ?st] => destruct (call f c r a k st) eqn:Ef
      end.
      right; right. do 2 eexists. rewrite Ef. cbn. split; reflexivity.
Qed.

(** C2 at the failing input.  The class body of [Update] calls
    [translate(manager_field_validators=True, skip_required=True,
    validate=True)], and [translate.__init__] has no parameter
    [skip_required]: the call raises [TypeError] and no [update] action is
    built.  The closure that [translate] builds from accepted arguments
    calls [request.translate] and never [request.validate].  The body of
    [update] itself calls [manager.update(url_params, body_args)] and
    answers with its result as properties and status 200. *)
Theorem Update_update_is_refused :
  (forall W (H : World W),
      @Update_update W H
      = Raise (TypeError "__init__() got an unexpected keyword argument 'skip_required'"))
  /\ (forall W (H : World W) (t : translate.t) (f : pyobj W) cls request args kw s,
        let r := fn_code (translate.__call__ t f) cls request args kw s in
        forall rq fs skip raised,
          EvValidate rq fs skip raised ∈ emitted r ->
          exists s1, EvValidate rq fs skip raised ∈ emitted (call f cls request args kw s1))
  /\ (let cls := VType (ResourceClass class_A) in
      let request := VDict [("name", VStr "y")] in
      let r := fn_code (def_ "update" (@update_body nat demo)) cls request [] [] demo_store in
      res r = Return (VNew (ResourceClass class_A)
                        [("properties", VDict [("name", VStr "y")]);
                         ("status_code", VInt 200)])
      /\ emitted r
         = [EvBody "update" [cls; request] [];
            EvManager demo_manager "update" [VDict []; request]
              (Return (VDict [("name", VStr "y")]))]).
Proof.
  split; [reflexivity|]. split; [|split; reflexivity].
  intros W H t f cls request args kw s r rq fs skip raised. subst r.
  destruct (translate_action_events t f cls request args kw s)
    as [[-> _]|[(fs' & e & -> & _)|(fs' & s1 & -> & _)]]; intros Hin.
  - by apply elem_of_nil in Hin.
  - apply list_elem_of_singleton in Hin. discriminate.
  - apply elem_of_cons in Hin as [?|?]; [discriminate|eauto].
Qed.

(** C3 at the failing input.  The class body of [Create] calls
    [translate(manager_field_validators=True, validate=True)], and
    [translate.__init__] has no parameter [validate]: the call raises
    [TypeError] and no [create] action is built.  Built with the accepted
    keyword only, the action translates the body fields merged with the
    manager's validators, does not validate them, and answers with the
    manager's result as properties, status 201 and a [created] link. *)
Theorem Create_create_is_refused :
  (forall W (H : World W),
      @Create_create W H
      = Raise (TypeError "__init__() got an unexpected keyword argument 'validate'"))
  /\ (let Pets := plain_class "Pets" (Some demo_manager) in
      let cls := VType (ResourceClass Pets) in
      let request := VDict [("name", VStr "x")] in
      let props := VDict [("id", VInt 1); ("name", VStr "x")] in
      let a := apimethod.__init__ "" None
                 [("methods", VList [VStr "POST"]); ("no_pks", VBool true)] in
      let t := translate.__init__ None true in
      let create := (@apimethod.__call__ nat demo a
                       (Fn (@translate.__call__ nat demo t
                              (Fn (def_ "create" (@create_body nat demo))))) []).1 in
      let bound := (getattr_on_class create Pets []).1 in
      let r := _apiclassmethod.bound_call bound [request] [] demo_store in
      res r = Return (VNew (ResourceClass Pets)
                        [("properties", props);
                         ("meta", VDict [("links", VDict [("created", props)])]);
                         ("status_code", VInt 201)])
      /\ emitted r
         = [EvTranslate request [FieldBase "name"] None;
            EvBody "create" [cls; request] [];
            EvManager demo_manager "create" [request] (Return props)]).
Proof.
  split; [reflexivity|]. cbv zeta. split; vm_compute; reflexivity.
Qed.

(** * Part VII. Further properties of the code *)

(** ** [translate] *)

(** X1. A call of an action decorated with [translate(fields,
    manager_field_validators)]: [request.translate] is called first, with
    the decoration-time list, followed by [cls.manager.field_validators]
    of the class of the call when [manager_field_validators] is set.  When
    it raises, the call raises the same exception and the function is not
    called; when it returns, the function runs on the state it left and
    its outcome is the outcome of the call. *)
Theorem translate_translates_the_merged_fields `{World W}
  (fields : option (list Field)) (mfv : bool) (f : pyobj W)
  (c : pyclass) (m : Manager) (request : value) (args : list value) (kw : kwargs)
  (s : store W) :
  (mfv = true -> manager c = Some m) ->
  let cls := VType (ResourceClass c) in
  let action := translate.__call__ (translate.__init__ fields mfv) f in
  let fs := merged_fields (or_nil fields) mfv m in
  let r := fn_code action cls request args kw s in
  let rt := request_translate request fs (world s) in
  match rt.1 with
  | Some e =>
      res r = Raise e /\ emitted r = [EvTranslate request fs (Some e)] /\
      final r = set_world s rt.2
  | None =>
      let rf := call f cls request args kw (set_world s rt.2) in
      res r = res rf /\ emitted r = EvTranslate request fs None :: emitted rf /\
      final r = final rf
  end.
Proof.
  intros Hm. cbv zeta.
  change (fn_code (translate.__call__ (translate.__init__ fields mfv) f))
    with (translate.action (translate.__init__ fields mfv) (or_nil fields) f).
  unfold translate.action, getattr_manager_field_validators, getattr_manager, lift,
    call_translate, merged_fields, mbind, M_bind, bind, mret, M_ret, ret, raise.
  cbn [translate.manager_field_validators translate.__init__].
  destruct mfv; cbn.
  - rewrite (Hm eq_refl). cbn.
    destruct (request_translate request _ (world s)) as [[e|] w']; cbn; [auto|].
    destruct (call f _ request args kw _) as [[a|e] s1 es]; cbn; auto.
  - destruct (request_translate request _ (world s)) as [[e|] w']; cbn; [auto|].
    destruct (call f _ request args kw _) as [[a|e] s1 es]; cbn; auto.
Qed.

Lemma translate_translates_the_merged_fields_witness :
  let action := @translate.__call__ nat demo
                  (translate.__init__ (Some [FieldBase "a"]) true) (Fn which_class) in
  let request := VDict [("a", VInt 1)] in
  let r := fn_code action (VType (ResourceClass class_A)) request [] [] demo_store in
  res r = Return (VType (ResourceClass class_A)) /\
  emitted r = [EvTranslate request [FieldBase "a"; FieldBase "name"] None;
               EvBody "action" [VType (ResourceClass class_A); request] []].
Proof.
  cbv zeta.
  pose proof (@translate_translates_the_merged_fields nat demo (Some [FieldBase "a"]) true
                (Fn which_class) class_A demo_manager (VDict [("a", VInt 1)]) [] []
                demo_store (fun _ => eq_refl)) as Hrun.
  cbv zeta in Hrun. cbn [fst] in Hrun.
  destruct Hrun as (Hres & Hem & _). rewrite Hres, Hem. split; reflexivity.
Defined.

(** X2. Merging with the manager's validators needs a manager.  On a class
    whose [manager] is [None], an action decorated with [translate] or
    [validate] and [manager_field_validators=True] raises
    [AttributeError] before the request container is called; the function
    is not called and the state is left as it was. *)
Theorem merging_needs_a_manager `{World W}
  (fields : option (list Field)) (skip : bool) (f : pyobj W)
  (c : pyclass) (request : value) (args : list value) (kw : kwargs) (s : store W) :
  manager c = None ->
  let cls := VType (ResourceClass c) in
  let refused : result (store W) value :=
    {| res := Raise (AttributeError "'NoneType' object has no attribute 'field_validators'");
       final := s; emitted := [] |} in
  fn_code (translate.__call__ (translate.__init__ fields true) f) cls request args kw s
  = refused
  /\ (in_force (or_nil fields) true skip s ->
      fn_code (validate.func (validate.__call__ (validate.__init__ fields true skip) f))
        cls request args kw s
      = refused).
Proof.
  intros Hm. cbv zeta. split.
  - change (fn_code (translate.__call__ (translate.__init__ fields true) f))
      with (translate.action (translate.__init__ fields true) (or_nil fields) f).
    unfold translate.action, getattr_manager_field_validators, getattr_manager,
      mbind, M_bind, bind, mret, M_ret, ret, raise.
    cbn. rewrite Hm. reflexivity.
  - intros (_ & _ & _ & Hso & Hmfv & _).
    change (fn_code (validate.func (validate.__call__ (validate.__init__ fields true skip) f)))
      with (validate.action f).
    rewrite (action_run f _ request args kw s _ Hso), Hmfv.
    unfold manager_validators. rewrite Hm. reflexivity.
Qed.

Lemma merging_needs_a_manager_witness :
  let c := plain_class "Orphan" None in
  res (fn_code (@translate.__call__ nat demo (translate.__init__ None true)
                  (Fn which_class))
         (VType (ResourceClass c)) (VDict []) [] [] demo_store)
  = Raise (AttributeError "'NoneType' object has no attribute 'field_validators'").
Proof.
  cbv zeta.
  rewrite (proj1 (@merging_needs_a_manager nat demo None false (Fn which_class)
                    (plain_class "Orphan" None) (VDict []) [] [] demo_store eq_refl)).
  reflexivity.
Defined.

(** ** [validate]: what the assignment leaves behind *)

(** X3. After a call of an action decorated with [validate] and
    [manager_field_validators=True] on a class with a manager, the
    attribute [fields] of the decorator instance is the decoration-time
    list followed by the validators of that manager, whether the
    validation passed or not: the instance remembers the class of the last
    call. *)
Theorem call_leaves_the_merged_list_in_self `{World W}
  (original : list Field) (skip : bool)
  (name : string) (body : value -> value -> M W value)
  (c : pyclass) (m : Manager) (request : value) (args : list value) (kw : kwargs)
  (s : store W) :
  in_force original true skip s ->
  manager c = Some m ->
  let r := validate.action (Fn (def_ name body)) (VType (ResourceClass c)) request args kw s in
  self_fields (self_obj (final r)) = original ++ field_validators m
  /\ in_force original true skip (final r).
Proof.
  intros Hs Hm. cbv zeta.
  pose proof Hs as (Hao & ? & ? & Hso & Hmfv & Hskip).
  rewrite (action_run _ _ _ _ _ s _ Hso), Hmfv.
  unfold manager_validators, validation_step. rewrite Hm. cbv zeta.
  rewrite def_run.
  destruct (request_validate request _ _ (world (with_self_fields s _))) as [[e|] w'];
    cbn [fst snd res final emitted].
  - split; [reflexivity|exact Hs].
  - destruct args, kw as [|[] ?]; cbn [res final emitted]; split; try reflexivity; exact Hs.
Qed.

Lemma call_leaves_the_merged_list_in_self_witness :
  let d := @validate.__call__ nat demo (validate.__init__ (Some [FieldBase "a"]) true false)
             (Fn which_class) in
  let r := @validate.action nat demo (Fn which_class) (VType (ResourceClass class_A))
             (VDict []) [] [] (validate.loaded d 0) in
  res r = Raise (Exception "ValidationException" "missing field") /\
  self_fields (self_obj (final r)) = [FieldBase "a"; FieldBase "name"].
Proof.
  cbv zeta. split; [reflexivity|].
  exact (proj1 (@call_leaves_the_merged_list_in_self nat demo [FieldBase "a"] false
                  "action" (fun cls _ => mret cls) class_A demo_manager (VDict []) [] []
                  (validate.loaded (@validate.__call__ nat demo
                     (validate.__init__ (Some [FieldBase "a"]) true false)
                     (Fn which_class)) 0)
                  (@loaded_in_force nat demo (Some [FieldBase "a"]) true false
                     (Fn which_class) 0)
                  eq_refl)).
Defined.

(** ** Decorators above [apimethod] *)

Lemma for_each_emits_hooks `{World W} (pos : list value) (kw : kwargs) ps (s : store W) :
  Forall not_body (emitted (for_each ps (fun p => lift (call_processor p pos kw)) s)).
Proof.
  destruct (for_each_chain pos kw ps s) as [Hchain _].
  induction Hchain; repeat constructor; auto.
Qed.

Lemma never_runs_apiclassmethod {W} (a : _apiclassmethod.t W) : never_runs (call (Acm a)).
Proof. intros cls request args kw s. cbn. split; [eauto|constructor]. Qed.

Lemma never_runs_wrapped `{World W} (o : pyobj W) :
  never_runs (call o) -> never_runs (apimethod.wrapped o).
Proof.
  intros Ho cls request args kw s. unfold apimethod.wrapped.
  rewrite bind_run.
  destruct cls as [| | | | | |[c|n]| |];
    cbn [getattr_preprocessors raise mret M_ret ret res final emitted];
    try (split; [eauto|constructor]).
  rewrite bind_run.
  pose proof (for_each_emits_hooks
                ([VType (ResourceClass c); VStr (name_of o); request] ++ args) kw
                (preprocessors c) s) as Hpre.
  set (rpre := for_each (preprocessors c) _ s) in *.
  destruct (res rpre) as [[]|e]; cbn [res emitted]; [|split; [eauto|exact Hpre]].
  rewrite bind_run.
  destruct (Ho (VType (ResourceClass c)) request args kw (final rpre)) as [[e He] Hem].
  rewrite He. cbn [res emitted]. split; [eauto|].
  cbn [app]. apply Forall_app. split; [exact Hpre|exact Hem].
Qed.

Lemma never_runs_validate `{World W} (o : pyobj W) :
  never_runs (call o) -> never_runs (validate.action o).
Proof.
  intros Ho cls request args kw s.
  destruct s as [w [sf sof smfv sskip] act].
  unfold validate.action, validate.read_self, validate.read_self_original_fields,
    validate.read_action, validate.assign_self_fields, getattr_manager_field_validators,
    getattr_manager, lift, call_validate, mbind, M_bind, bind, mret, M_ret, ret, raise.
  cbn.
  destruct smfv; cbn.
  - destruct sof as [so|]; cbn; [|split; [eauto|constructor]].
    destruct cls as [| | | | | |[c|n]| |]; cbn; try (split; [eauto|constructor]).
    destruct (manager c) as [m|]; cbn; [|split; [eauto|constructor]].
    destruct (request_validate request _ sskip w) as [[e|] w']; cbn;
      [split; [eauto|repeat constructor]|].
    match goal with
    | |- context [call o ?c ?r ?a ?k ?st] =>
        destruct (Ho c r a k st) as [[e He] Hem]; destruct (call o c r a k st)
    end.
    cbn in *. subst. split; [eauto|]. constructor; [exact I|exact Hem].
  - destruct (request_validate request _ sskip w) as [[e|] w']; cbn;
      [split; [eauto|repeat constructor]|].
    match goal with
    | |- context [call o ?c ?r ?a ?k ?st] =>
        destruct (Ho c r a k st) as [[e He] Hem]; destruct (call o c r a k st)
    end.
    cbn in *. subst. split; [eauto|]. constructor; [exact I|exact Hem].
Qed.

Lemma never_runs_translate `{World W} (t : translate.t) (fs : list Field) (o : pyobj W) :
  never_runs (call o) -> never_runs (translate.action t fs o).
Proof.
  intros Ho cls request args kw s.
  unfold translate.action, getattr_manager_field_validators, getattr_manager, lift,
    call_translate, mbind, M_bind, bind, mret, M_ret, ret, raise.
  destruct (translate.manager_field_validators t); cbn.
  - destruct cls as [| | | | | |[c|n]| |]; cbn; try (split; [eauto|constructor]).
    destruct (manager c) as [m|]; cbn; [|split; [eauto|constructor]].
    destruct (request_translate request _ (world s)) as [[e|] w']; cbn;
      [split; [eauto|repeat constructor]|].
    match goal with
    | |- context [call o ?c ?r ?a ?k ?st] =>
        destruct (Ho c r a k st) as [[e He] Hem]; destruct (call o c r a k st)
    end.
    cbn in *. subst. split; [eauto|]. constructor; [exact I|exact Hem].
  - destruct (request_translate request _ (world s)) as [[e|] w']; cbn;
      [split; [eauto|repeat constructor]|].
    match goal with
    | |- context [call o ?c ?r ?a ?k ?st] =>
        destruct (Ho c r a k st) as [[e He] Hem]; destruct (call o c r a k st)
    end.
    cbn in *. subst. split; [eauto|]. constructor; [exact I|exact Hem].
Qed.

(** A decorator applied to something that cannot run gives something that
    cannot run, called directly or through its descriptor. *)
Lemma layer_over_never_runs `{World W} (l : layer) (o : pyobj W) (h : heap) :
  never_runs (call o) ->
  never_runs (call (apply_layer l o h).1) /\ never_runs (invoke (apply_layer l o h).1).
Proof.
  intros Ho. destruct l as [a|v|t].
  - unfold apply_layer, mbind, D_bind, mret, D_ret.
    pose proof (apimethod_call_f a o h) as [Hcode _].
    destruct (apimethod.__call__ a o h) as [acm h']. cbn [fst snd] in *.
    split; [apply never_runs_apiclassmethod|].
    cbn [invoke]. rewrite Hcode. by apply never_runs_wrapped.
  - cbn [apply_layer mret D_ret fst].
    assert (never_runs (validate.action o)) by by apply never_runs_validate.
    split; exact H0.
  - cbn [apply_layer mret D_ret fst].
    assert (never_runs (translate.action t (translate.fields t) o))
      by by apply never_runs_translate.
    split; exact H0.
Qed.

Lemma decorate_app `{World W} (ls1 ls2 : list layer) (o : pyobj W) (h : heap) :
  decorate (ls1 ++ ls2) o h
  = decorate ls2 (decorate ls1 o h).1 (decorate ls1 o h).2.
Proof.
  revert o h. induction ls1 as [|l ls1 IH]; intros o h; [reflexivity|].
  cbn [app decorate]. unfold mbind, D_bind.
  destruct (apply_layer l o h) as [o' h']. apply IH.
Qed.

Lemma decorate_cons `{World W} (l : layer) (ls : list layer) (o : pyobj W) (h : heap) :
  decorate (l :: ls) o h = decorate ls (apply_layer l o h).1 (apply_layer l o h).2.
Proof.
  cbn [decorate]. unfold mbind, D_bind. by destruct (apply_layer l o h).
Qed.

Lemma decorate_never_runs `{World W} (ls : list layer) :
  forall (o : pyobj W) (h : heap),
  never_runs (call o) -> never_runs (invoke o) ->
  never_runs (invoke (decorate ls o h).1).
Proof.
  induction ls as [|l ls IH]; intros o h Hc Hi; [exact Hi|].
  cbn [decorate]. unfold mbind, D_bind.
  destruct (layer_over_never_runs l o h Hc) as [Hc' Hi'].
  destruct (apply_layer l o h) as [o' h']. by apply IH.
Qed.

(** X4. A stack of decorators with [apimethod] below another decorator
    gives an action that cannot succeed: whatever the class, the request
    and the collaborators, running it raises, and the decorated function
    is never entered.  (The object of [apimethod] is not callable, and the
    decorator above it calls it.) *)
Theorem nothing_runs_above_apimethod `{World W}
  (below : list layer) (a : apimethod.t) (l : layer) (above : list layer)
  (name : string) (body : value -> value -> M W value) (h : heap)
  (cls request : value) (args : list value) (kw : kwargs) (s : store W) :
  let o := (decorate (below ++ Apimethod a :: l :: above) (Fn (def_ name body)) h).1 in
  let r := invoke o cls request args kw s in
  (exists e, res r = Raise e) /\ Forall not_body (emitted r).
Proof.
  cbv zeta. rewrite decorate_app, !decorate_cons.
  set (o0 := (decorate below (Fn (def_ name body)) h).1).
  set (h0 := (decorate below (Fn (def_ name body)) h).2).
  assert (Hacm : never_runs (call (apply_layer (Apimethod a) o0 h0).1)).
  { unfold apply_layer, mbind, D_bind, mret, D_ret.
    destruct (apimethod.__call__ a o0 h0) as [acm h1]. apply never_runs_apiclassmethod. }
  destruct (layer_over_never_runs l _ (apply_layer (Apimethod a) o0 h0).2 Hacm)
    as [Hc Hi].
  by apply decorate_never_runs.
Qed.

(** ** Sharing of the [routes] list *)

Lemma apimethod_result_routes `{World W} (a : apimethod.t) (f : pyobj W) (h : heap) :
  dict_of (Acm (apimethod.__call__ a f h).1) !! "routes"
  = Some (ARoutes (_apiclassmethod.routes (apimethod.__call__ a f h).1)).
Proof.
  rewrite apimethod_call_result. cbn [fst dict_of].
  unfold _apiclassmethod.__dict__.
  cbn [_apiclassmethod.f _apiclassmethod.rest_route _apiclassmethod.routes].
  rewrite other_key_routes by done. rewrite other_key_routes by done.
  by rewrite lookup_insert_eq.
Qed.

(** X5. Two [apimethod] decorators applied, one after the other, to the
    same object that already has a [routes] list append to that one list:
    afterwards each of the two results shows both entries. *)
Theorem apimethods_share_the_list `{World W} (a1 a2 : apimethod.t) (o : pyobj W)
  (h : heap) (es : list route_entry) :
  read_routes o h = Some es ->
  let e1 := (apimethod.route a1, apimethod.endpoint a1, apimethod.options a1) in
  let e2 := (apimethod.route a2, apimethod.endpoint a2, apimethod.options a2) in
  let r1 := apimethod.__call__ a1 o h in
  let r2 := apimethod.__call__ a2 o r1.2 in
  read_routes (Acm r1.1) r2.2 = Some (es ++ [e1; e2]) /\
  read_routes (Acm r2.1) r2.2 = Some (es ++ [e1; e2]) /\
  read_routes o r2.2 = Some (es ++ [e1; e2]).
Proof.
  intros Hes. cbv zeta.
  unfold read_routes in *.
  rewrite !apimethod_result_routes, !apimethod_call_result. cbn [fst snd _apiclassmethod.routes].
  destruct (dict_of o !! "routes") as [[l| | |]|] eqn:E; try done.
  assert (Hl : l < length h) by (by apply lookup_lt_Some in Hes).
  rewrite Hes. rewrite list_lookup_insert_eq by exact Hl.
  rewrite list_insert_insert_eq.
  rewrite list_lookup_insert_eq by exact Hl.
  rewrite <- app_assoc. auto.
Qed.

Lemma apimethods_share_the_list_witness :
  let a0 := apimethod.__init__ "/pets" None [] in
  let a1 := apimethod.__init__ "/cats" None [] in
  let a2 := apimethod.__init__ "/dogs" None [] in
  let inner := @apimethod.__call__ nat demo a0 (Fn which_class) [] in
  let r1 := @apimethod.__call__ nat demo a1 (Acm inner.1) inner.2 in
  let r2 := @apimethod.__call__ nat demo a2 (Acm inner.1) r1.2 in
  read_routes (Acm inner.1) inner.2 = Some [("/pets", None, [])] /\
  read_routes (Acm r1.1) r2.2
  = Some [("/pets", None, []); ("/cats", None, []); ("/dogs", None, [])].
Proof.
  cbv zeta.
  assert (Hin : read_routes
                  (Acm (@apimethod.__call__ nat demo (apimethod.__init__ "/pets" None [])
                          (Fn which_class) []).1)
                  (@apimethod.__call__ nat demo (apimethod.__init__ "/pets" None [])
                     (Fn which_class) []).2
                = Some [("/pets", None, [])]) by (vm_compute; reflexivity).
  split; [exact Hin|].
  exact (proj1 (@apimethods_share_the_list nat demo
                  (apimethod.__init__ "/cats" None []) (apimethod.__init__ "/dogs" None [])
                  _ _ _ Hin)).
Defined.

(** X6. Applied to an object without a [routes] attribute, every
    [apimethod] makes a list of its own: two applications to the same
    function give two results that each show their own entry only, and
    the function still has no [routes]. *)
Theorem apimethods_start_separate_lists `{World W} (a1 a2 : apimethod.t) (o : pyobj W)
  (h : heap) :
  dict_of o !! "routes" = None ->
  let e1 := (apimethod.route a1, apimethod.endpoint a1, apimethod.options a1) in
  let e2 := (apimethod.route a2, apimethod.endpoint a2, apimethod.options a2) in
  let r1 := apimethod.__call__ a1 o h in
  let r2 := apimethod.__call__ a2 o r1.2 in
  read_routes (Acm r1.1) r2.2 = Some [e1] /\
  read_routes (Acm r2.1) r2.2 = Some [e2] /\
  read_routes o r2.2 = None.
Proof.
  intros Hno. cbv zeta.
  unfold read_routes.
  rewrite !apimethod_result_routes, !apimethod_call_result. cbn [fst snd _apiclassmethod.routes].
  rewrite Hno.
  rewrite (lookup_app_r h) by lia. rewrite Nat.sub_diag. cbn [lookup list_lookup].
  set (h1 := <[length h:=[] ++ [_]]> (h ++ [[]])).
  assert (Hlen : length h1 = S (length h)).
  { unfold h1. rewrite length_insert, length_app. cbn. lia. }
  rewrite (lookup_app_r h1) by lia. rewrite Hlen, Nat.sub_diag. cbn [lookup list_lookup].
  split; [|split; [|reflexivity]].
  - rewrite list_lookup_insert_ne by lia.
    rewrite lookup_app_l by lia.
    unfold h1. rewrite list_lookup_insert_eq by (rewrite length_app; cbn; lia). reflexivity.
  - rewrite <- Hlen.
    rewrite list_lookup_insert_eq by (rewrite length_app; cbn; lia). reflexivity.
Qed.

Lemma apimethods_start_separate_lists_witness :
  let a1 := apimethod.__init__ "/cats" None [] in
  let a2 := apimethod.__init__ "/dogs" None [] in
  let r1 := @apimethod.__call__ nat demo a1 (Fn which_class) [] in
  let r2 := @apimethod.__call__ nat demo a2 (Fn which_class) r1.2 in
  read_routes (Acm r1.1) r2.2 = Some [("/cats", None, [])] /\
  read_routes (Acm r2.1) r2.2 = Some [("/dogs", None, [])].
Proof.
  cbv zeta.
  destruct (@apimethods_start_separate_lists nat demo
              (apimethod.__init__ "/cats" None []) (apimethod.__init__ "/dogs" None [])
              (Fn which_class) [] eq_refl) as (H1 & H2 & _).
  split; [exact H1|exact H2].
Defined.

(** ** The bound function *)

(** X7. Reading a decorated action through a class or an instance keeps
    its metadata: the bound function has the name of the decorated
    function, the marker [__rest_route__], and as [routes] the very list
    of the action; no list is made and the heap is left as it was. *)
Theorem binding_keeps_the_routes `{World W} (a : apimethod.t) (f : pyobj W)
  (h0 h : heap) (obj : value) (klass : option pytype) :
  let action := (apimethod.__call__ a f h0).1 in
  let b := _apiclassmethod.__get__ action obj klass h in
  b.2 = h /\
  _apiclassmethod.bound_dict b.1 !! "routes"
    = Some (ARoutes (_apiclassmethod.routes action)) /\
  _apiclassmethod.bound_dict b.1 !! "__rest_route__" = Some (ABool true) /\
  _apiclassmethod.bound_name b.1 = name_of f /\
  (forall h', read_routes (Acm action) h'
              = match _apiclassmethod.bound_dict b.1 !! "routes" with
                | Some (ARoutes l) => h' !! l
                | _ => None
                end).
Proof.
  cbv zeta. rewrite apimethod_call_result. cbn [fst].
  unfold _apiclassmethod.__get__, _apiclassmethod.getattr_routes, mbind, D_bind, mret, D_ret.
  cbn [_apiclassmethod.f _apiclassmethod.routes fn_dict setattr fn_name wraps].
  rewrite lookup_insert_eq. cbn [fst snd _apiclassmethod.bound_dict _apiclassmethod.bound_name].
  rewrite lookup_insert_eq.
  rewrite (lookup_insert_ne _ "routes" "__rest_route__") by done.
  rewrite lookup_insert_eq.
  repeat split.
Qed.


(** ** The attributes of stacked decorators *)

(** X9. On the function that [validate] or [translate] returns, the
    attributes [fields] and [original_fields] are the list of that
    decorator, whatever the decorated object carried under these names;
    every other attribute of the decorated object is handed on.  So with
    one of them stacked on the other, the result shows the list of the
    outer one only. *)
Theorem outer_decorator_owns_fields `{World W} (v : validate_obj) (t : translate.t)
  (o : pyobj W) :
  let by_validate := fn_dict (validate.func (validate.__call__ v o)) in
  let by_translate := fn_dict (translate.__call__ t o) in
  by_validate !! "fields" = Some (AFields (self_fields v)) /\
  by_validate !! "original_fields" = Some (AFields (self_fields v)) /\
  by_translate !! "fields" = Some (AFields (translate.fields t)) /\
  by_translate !! "original_fields" = Some (AFields (translate.fields t)) /\
  (forall key,
      key ∉ ["fields"; "original_fields"; "__manager_field_validators__"; "__wrapped__"] ->
      by_validate !! key = dict_of o !! key /\ by_translate !! key = dict_of o !! key) /\
  fn_dict (validate.func (validate.__call__ v (Fn (translate.__call__ t o)))) !! "fields"
    = Some (AFields (self_fields v)).
Proof.
  cbv zeta.
  cbn [fn_dict validate.func validate.__call__ validate.decorate_with translate.__call__
         setattr wraps dict_of].
  repeat split;
    try (repeat first [rewrite lookup_insert_eq | rewrite lookup_insert_ne by done];
         reflexivity).
  - rewrite !lookup_insert_ne; [done|..]; intros <-; apply H0;
      repeat first [apply list_elem_of_here | apply list_elem_of_further].
  - rewrite !lookup_insert_ne; [done|..]; intros <-; apply H0;
      repeat first [apply list_elem_of_here | apply list_elem_of_further].
Qed.

(** ** [links] when two definitions compete *)

Lemma split_unique (x : mixin) (k1 k2 j1 j2 : list mixin) :
  x ∉ k1 -> x ∉ j1 -> k1 ++ x :: k2 = j1 ++ x :: j2 -> k1 = j1.
Proof.
  revert j1. induction k1 as [|a k1 IH]; intros [|b j1] Hk Hj Heq; cbn in Heq.
  - done.
  - injection Heq as -> _. exfalso. apply Hj. left.
  - injection Heq as -> _. exfalso. apply Hk. left.
  - injection Heq as -> Heq. f_equal.
    apply IH; [| |done].
    + intros ?. apply Hk. by right.
    + intros ?. apply Hj. by right.
Qed.

Lemma one_before_the_other (ms : list mixin) (x y : mixin) :
  x ∈ ms -> y ∈ ms -> x <> y ->
  [x; y] `sublist_of` ms \/ [y; x] `sublist_of` ms.
Proof.
  intros Hx Hy Hne. apply list_elem_of_split in Hx as (k1 & k2 & ->).
  apply elem_of_app in Hy as [Hy|Hy].
  - right. apply list_elem_of_split in Hy as (a & b & ->).
    rewrite <- app_assoc. apply sublist_inserts_l. cbn. apply sublist_skip.
    apply sublist_inserts_l. apply sublist_skip. apply sublist_nil_l.
  - apply elem_of_cons in Hy as [->|Hy]; [done|].
    left. apply sublist_inserts_l. apply sublist_skip. by apply singleton_sublist_l.
Qed.

(** What the resolution order of a user class with a base always has. *)
Lemma user_mro_facts (u : user_class) (ms : list mixin) :
  mro_of (User u) = Some ms ->
  class_bases u <> [] ->
  NoDup ms /\ ResourceBase ∈ ms /\
  (forall x, x ∈ ms -> x <> ResourceBase -> [x; ResourceBase] `sublist_of` ms).
Proof.
  intros Hm Hbases.
  destruct (user_mro_spec u ms Hm) as (Hnd & Hsub & Hfrom).
  split; [exact Hnd|]. split.
  - destruct (class_bases u) as [|b bs] eqn:Eb; [done|].
    destruct (Hsub b) as (p & Hp & Hpms); [left|].
    eapply elem_of_sublist; [|exact Hpms]. by eapply mro_ends_in_ResourceBase.
  - intros x Hx Hne. eapply (user_mro_keeps u ms x); [done..|].
    intros b p Hp Hxp. by eapply mro_above_ResourceBase.
Qed.

(** With [x] before [y] and no repetition, the part before [x] has neither
    [x], nor [y], nor the base class. *)
Lemma split_at_first (u : user_class) (ms : list mixin) (x y : mixin) :
  mro_of (User u) = Some ms ->
  class_bases u <> [] ->
  x <> ResourceBase ->
  [x; y] `sublist_of` ms ->
  exists k1 k2, ms = k1 ++ x :: k2 /\ (x ∉ k1) /\ (y ∉ k1) /\ (ResourceBase ∉ k1).
Proof.
  intros Hm Hbases Hne Hxy.
  destruct (user_mro_facts u ms Hm Hbases) as (Hnd & _ & Habove).
  destruct (split_before ms x [y] Hnd Hxy) as (k1 & k2 & Heq & Hx & Hy).
  assert (Hxms : x ∈ ms) by (eapply elem_of_sublist; [|exact Hxy]; left).
  destruct (split_before ms x [ResourceBase] Hnd (Habove x Hxms Hne))
    as (j1 & j2 & Heq' & Hx' & HRB).
  assert (k1 = j1) as <-.
  { eapply (split_unique x k1 k2 j1 j2); [done..|]. by rewrite <- Heq, <- Heq'. }
  exists k1, k2. repeat split; [done..| |].
  - apply Hy. left.
  - apply HRB. left.
Qed.

Lemma user_links_first_wins (u : user_class) (ms : list mixin) :
  mro_of (User u) = Some ms ->
  class_bases u <> [] ->
  CRUDL ∉ ms ->
  ([Create; RetrieveList] `sublist_of` ms ->
   links (User u)
   = Return (or_empty (class_links u) ++ Create_get_base_links (User u)))
  /\ ([RetrieveList; Create] `sublist_of` ms ->
      links (User u)
      = Return (or_empty (class_links u) ++ RetrieveList_get_base_links (User u))).
Proof.
  intros Hm Hbases HC. unfold links. split; intros Horder.
  - destruct (split_at_first u ms Create RetrieveList Hm Hbases ltac:(done) Horder)
      as (k1 & k2 & -> & HCr & HRL & HRB).
    rewrite (getattr_first own_links "links" u k1 k2 Create Create_links Hm); [|..|done].
    + cbn [mbind outcome_bind]. by rewrite Create_links_eq.
    + intros y Hy. apply own_links_elsewhere; intros ->; try done.
      apply HC, elem_of_app. by left.
  - destruct (split_at_first u ms RetrieveList Create Hm Hbases ltac:(done) Horder)
      as (k1 & k2 & -> & HRL & HCr & HRB).
    rewrite (getattr_first own_links "links" u k1 k2 RetrieveList RetrieveList_links Hm);
      [|..|done].
    + cbn [mbind outcome_bind]. unfold RetrieveList_links.
      rewrite (getattr_first own_get_base_links "get_base_links" u k1 k2 RetrieveList
                 RetrieveList_get_base_links Hm); [done|..|done].
      intros y Hy. apply own_get_base_links_elsewhere; intros ->; done.
    + intros y Hy. apply own_links_elsewhere; intros ->; try done.
      apply HC, elem_of_app. by left.
Qed.

(** X10. A class that inherits both [Create] and [RetrieveList] without
    going through [CRUDL] gets the links of one of them only, the one that
    comes first in its resolution order: [created] alone when [Create] is
    first, [next] and [previous] alone when [RetrieveList] is first. *)
Theorem first_links_definition_wins (u : user_class) (ms : list mixin) :
  mro_of (User u) = Some ms ->
  class_bases u <> [] ->
  CRUDL ∉ ms ->
  ([Create; RetrieveList] `sublist_of` ms ->
   links (User u)
   = Return (or_empty (class_links u) ++ Create_get_base_links (User u)))
  /\ ([RetrieveList; Create] `sublist_of` ms ->
      links (User u)
      = Return (or_empty (class_links u) ++ RetrieveList_get_base_links (User u))).
Proof. apply user_links_first_wins. Qed.

Lemma first_links_definition_wins_witness :
  links (User class_X) = Return (Create_get_base_links (User class_X)) /\
  links (User class_Y) = Return (RetrieveList_get_base_links (User class_Y)).
Proof.
  split.
  - refine (proj1 (first_links_definition_wins class_X [Create; RetrieveList; ResourceBase]
                     eq_refl _ _) _).
    + discriminate.
    + intros Hin. repeat (apply elem_of_cons in Hin as [Hin|Hin]; [discriminate|]).
      by apply elem_of_nil in Hin.
    + solve_sublist.
  - refine (proj2 (first_links_definition_wins class_Y [RetrieveList; Create; ResourceBase]
                     eq_refl _ _) _).
    + discriminate.
    + intros Hin. repeat (apply elem_of_cons in Hin as [Hin|Hin]; [discriminate|]).
      by apply elem_of_nil in Hin.
    + solve_sublist.
Defined.

Lemma base_links_name_the_class (m : mixin) (cls : class) :
  Forall (fun r => relation_of r = Some (RStr (name_of_class cls))) (base_links_of m cls).
Proof. destruct m; repeat constructor. Qed.

(** X11. For every class that inherits from the mixins with a consistent
    resolution order, [links] returns: it is the declared [_links]
    followed by links that all carry, as [relation], the name of the
    class the property was read on, not the name of the mixin that made
    them. *)
Theorem links_name_the_accessing_class (u : user_class) (ms : list mixin) :
  mro_of (User u) = Some ms ->
  class_bases u <> [] ->
  exists rest,
    links (User u) = Return (or_empty (class_links u) ++ rest) /\
    Forall (fun r => relation_of r = Some (RStr (class_name u))) rest.
Proof.
  intros Hm Hbases.
  destruct (decide (CRUDL ∈ ms \/ Create ∉ ms \/ RetrieveList ∉ ms)) as [Hok|Hnot].
  - exists (flat_map (fun m => base_links_of m (User u)) ms). split.
    + by apply user_links_accumulate.
    + clear. induction ms as [|m ms IH]; [constructor|].
      cbn [flat_map]. apply Forall_app. split; [|exact IH].
      apply (base_links_name_the_class m (User u)).
  - assert (HC : CRUDL ∉ ms) by tauto.
    assert (HCr : Create ∈ ms) by (destruct (decide (Create ∈ ms)); tauto).
    assert (HRL : RetrieveList ∈ ms) by (destruct (decide (RetrieveList ∈ ms)); tauto).
    destruct (user_links_first_wins u ms Hm Hbases HC) as [Hfirst Hsecond].
    destruct (one_before_the_other ms Create RetrieveList HCr HRL ltac:(done)) as [Ho|Ho].
    + eexists. split; [by apply Hfirst|]. repeat constructor.
    + eexists. split; [by apply Hsecond|]. repeat constructor.
Qed.

Lemma links_name_the_accessing_class_witness :
  exists rest,
    links (User class_Pets)
    = Return ([ {| rel_name := "owner"; rel_kwargs := [] |} ] ++ rest) /\
    Forall (fun r => relation_of r = Some (RStr "Pets")) rest.
Proof.
  refine (links_name_the_accessing_class class_Pets _ eq_refl _). discriminate.
Defined.

(** ** The actions of the mixins *)

Lemma create_body_delegates `{World W} (c : pyclass) (m : Manager) (request : value)
  (s : store W) :
  manager c = Some m ->
  delegates_to_manager "create" ["body_args"]
    (fun props => [("properties", props);
                   ("meta", VDict [("links", VDict [("created", props)])]);
                   ("status_code", VInt 201)])
    c m request s
    (fn_code (def_ "create" create_body) (VType (ResourceClass c)) request [] [] s).
Proof.
  intros Hm. destruct s as [w so ao].
  unfold delegates_to_manager, def_, create_body, getattr_manager, lift, read_request,
    call_manager, instantiate, emit, set_world, mbind, M_bind, bind, mret, M_ret, ret, raise.
  cbn. rewrite Hm. cbn.
  destruct (request_attr request "body_args" w) as [v|e]; cbn; [|done].
  destruct (manager_call m "create" [v] w) as [[props|e] w']; cbn; done.
Qed.

Lemma update_body_delegates `{World W} (c : pyclass) (m : Manager) (request : value)
  (s : store W) :
  manager c = Some m ->
  delegates_to_manager "update" ["url_params"; "body_args"]
    (fun props => [("properties", props); ("status_code", VInt 200)])
    c m request s
    (fn_code (def_ "update" update_body) (VType (ResourceClass c)) request [] [] s).
Proof.
  intros Hm. destruct s as [w so ao].
  unfold delegates_to_manager, def_, update_body, getattr_manager, lift, read_request,
    call_manager, instantiate, emit, set_world, mbind, M_bind, bind, mret, M_ret, ret, raise.
  cbn. rewrite Hm. cbn.
  destruct (request_attr request "url_params" w) as [u|e]; cbn; [|done].
  destruct (request_attr request "body_args" w) as [v|e]; cbn; [|done].
  destruct (manager_call m "update" [u; v] w) as [[props|e] w']; cbn; done.
Qed.

Lemma retrieve_body_delegates `{World W} (c : pyclass) (m : Manager) (request : value)
  (s : store W) :
  manager c = Some m ->
  delegates_to_manager "retrieve" ["url_params"]
    (fun props => [("properties", props); ("status_code", VInt 200)])
    c m request s
    (fn_code (def_ "retrieve" retrieve_body) (VType (ResourceClass c)) request [] [] s).
Proof.
  intros Hm. destruct s as [w so ao].
  unfold delegates_to_manager, def_, retrieve_body, getattr_manager, lift, read_request,
    call_manager, instantiate, emit, set_world, mbind, M_bind, bind, mret, M_ret, ret, raise.
  cbn. rewrite Hm. cbn.
  destruct (request_attr request "url_params" w) as [u|e]; cbn; [|done].
  destruct (manager_call m "retrieve" [u] w) as [[props|e] w']; cbn; done.
Qed.

Lemma delete_body_delegates `{World W} (c : pyclass) (m : Manager) (request : value)
  (s : store W) :
  manager c = Some m ->
  delegates_to_manager "delete" ["url_params"]
    (fun props => [("properties", props)])
    c m request s
    (fn_code (def_ "delete" delete_body) (VType (ResourceClass c)) request [] [] s).
Proof.
  intros Hm. destruct s as [w so ao].
  unfold delegates_to_manager, def_, delete_body, getattr_manager, lift, read_request,
    call_manager, instantiate, emit, set_world, mbind, M_bind, bind, mret, M_ret, ret, raise.
  cbn. rewrite Hm. cbn.
  destruct (request_attr request "url_params" w) as [u|e]; cbn; [|done].
  destruct (manager_call m "delete" [u] w) as [[props|e] w']; cbn; done.
Qed.

(** X12. The bodies of [create], [update], [retrieve] and [delete] on a
    class with a manager: the request attributes are read in the order of
    the source ([body_args]; [url_params] then [body_args]; [url_params];
    [url_params]) and a read that raises ends the call before the manager
    is reached; otherwise the manager's method of the same name is called
    once with the values read, its exception is the exception of the call,
    and its answer becomes the [properties] of a new instance of the class
    the action was called on, with status 201 and the [created] link for
    [create], status 200 for [update] and [retrieve], and no status for
    [delete]. *)
Theorem bodies_delegate_to_the_manager `{World W} (c : pyclass) (m : Manager)
  (request : value) (s : store W) :
  manager c = Some m ->
  let cls := VType (ResourceClass c) in
  delegates_to_manager "create" ["body_args"]
    (fun props => [("properties", props);
                   ("meta", VDict [("links", VDict [("created", props)])]);
                   ("status_code", VInt 201)])
    c m request s (fn_code (def_ "create" create_body) cls request [] [] s)
  /\ delegates_to_manager "update" ["url_params"; "body_args"]
       (fun props => [("properties", props); ("status_code", VInt 200)])
       c m request s (fn_code (def_ "update" update_body) cls request [] [] s)
  /\ delegates_to_manager "retrieve" ["url_params"]
       (fun props => [("properties", props); ("status_code", VInt 200)])
       c m request s (fn_code (def_ "retrieve" retrieve_body) cls request [] [] s)
  /\ delegates_to_manager "delete" ["url_params"]
       (fun props => [("properties", props)])
       c m request s (fn_code (def_ "delete" delete_body) cls request [] [] s).
Proof.
  intros Hm. cbv zeta. repeat split.
  - by apply create_body_delegates.
  - by apply update_body_delegates.
  - by apply retrieve_body_delegates.
  - by apply delete_body_delegates.
Qed.

Lemma bodies_delegate_to_the_manager_witness :
  let request := VDict [("name", VStr "rex")] in
  let cls := VType (ResourceClass class_A) in
  res (fn_code (@def_ nat "create" (@create_body nat demo)) cls request [] [] demo_store)
  = Return (VNew (ResourceClass class_A)
              [("properties", VDict [("id", VInt 1); ("name", VStr "rex")]);
               ("meta", VDict [("links", VDict [("created",
                          VDict [("id", VInt 1); ("name", VStr "rex")])])]);
               ("status_code", VInt 201)])
  /\ res (fn_code (@def_ nat "delete" (@delete_body nat demo)) cls request [] [] demo_store)
     = Return (VNew (ResourceClass class_A)
                 [("properties", VDict [("id", VInt 1)])]).
Proof.
  cbv zeta.
  destruct (@bodies_delegate_to_the_manager nat demo class_A demo_manager
              (VDict [("name", VStr "rex")]) demo_store eq_refl)
    as (Hcreate & _ & _ & Hdelete).
  split.
  - destruct Hcreate as (_ & _ & Hres). exact Hres.
  - destruct Hdelete as (_ & _ & Hres). exact Hres.
Defined.

Lemma translates_then_mono `{World W} (fs : list Field) (request : value)
  (P Q : store W -> result (store W) value -> Prop) (s : store W)
  (r : result (store W) value) :
  (forall s1 rb, P s1 rb -> Q s1 rb) ->
  translates_then fs request P s r -> translates_then fs request Q s r.
Proof.
  unfold translates_then. cbv zeta. intros HPQ.
  destruct (request_translate request fs (world s)) as [[e|] w']; cbn; [done|].
  intros (rb & HP & Hrest). exists rb. split; [by apply HPQ|exact Hrest].
Qed.

(** A function decorated with [translate(manager_field_validators=True)]
    on a class with a manager. *)
Lemma translate_with_manager_run `{World W} (f : pyobj W) (c : pyclass) (m : Manager)
  (request : value) (args : list value) (kw : kwargs) (s : store W) :
  manager c = Some m ->
  translates_then (field_validators m) request
    (fun s1 rb => rb = call f (VType (ResourceClass c)) request args kw s1) s
    (call (Fn (translate.__call__ (translate.__init__ None true) f))
       (VType (ResourceClass c)) request args kw s).
Proof.
  intros Hm.
  change (call (Fn (translate.__call__ (translate.__init__ None true) f)))
    with (translate.action (translate.__init__ None true) [] f).
  unfold translates_then, translate.action, getattr_manager_field_validators,
    getattr_manager, lift, call_translate, mbind, M_bind, bind, mret, M_ret, ret, raise.
  cbn [translate.manager_field_validators translate.__init__].
  cbn. rewrite Hm. cbn.
  destruct (request_translate request _ (world s)) as [[e|] w']; cbn; [auto|].
  eexists. split; [reflexivity|].
  destruct (call f _ request args kw _) as [[a|e] s1 es]; cbn; auto.
Qed.

(** X13. The class bodies of [Retrieve] and [Delete] are accepted and build
    their actions.  A call of the built action on a class with a manager
    composes three layers: the class's pre-processors and post-processors
    around the translating wrapper, which is called under the name of the
    function; in the wrapper, [request.translate] with the manager's
    validators, whose exception ends the call before the body; then the
    body, which asks the manager. *)
Theorem retrieve_and_delete_translate_first `{World W} (c : pyclass) (m : Manager)
  (request : value) (s : store W) (h : heap) :
  manager c = Some m ->
  let cls := VType (ResourceClass c) in
  exists retrieve delete,
    Retrieve_retrieve = Return retrieve /\ Delete_delete = Return delete /\
    (exists inner,
        wrapped_shape inner c request [] [] s
          (invoke (Acm (retrieve h).1) cls request [] [] s) /\
        name_of inner = "retrieve" /\
        forall s1,
          translates_then (field_validators m) request
            (delegates_to_manager "retrieve" ["url_params"]
               (fun props => [("properties", props); ("status_code", VInt 200)])
               c m request)
            s1 (call inner cls request [] [] s1)) /\
    (exists inner,
        wrapped_shape inner c request [] [] s
          (invoke (Acm (delete h).1) cls request [] [] s) /\
        name_of inner = "delete" /\
        forall s1,
          translates_then (field_validators m) request
            (delegates_to_manager "delete" ["url_params"]
               (fun props => [("properties", props)])
               c m request)
            s1 (call inner cls request [] [] s1)).
Proof.
  intros Hm. cbv zeta.
  eexists _, _. split; [reflexivity|]. split; [reflexivity|]. split.
  - exists (Fn (translate.__call__ (translate.__init__ None true)
                  (Fn (def_ "retrieve" retrieve_body)))).
    split; [|split; [reflexivity|]].
    + unfold invoke. rewrite (proj1 (apimethod_call_f _ _ h)). apply wrapped_has_shape.
    + intros s1. eapply translates_then_mono; [|by apply translate_with_manager_run].
      intros s2 rb ->. by apply retrieve_body_delegates.
  - exists (Fn (translate.__call__ (translate.__init__ None true)
                  (Fn (def_ "delete" delete_body)))).
    split; [|split; [reflexivity|]].
    + unfold invoke. rewrite (proj1 (apimethod_call_f _ _ h)). apply wrapped_has_shape.
    + intros s1. eapply translates_then_mono; [|by apply translate_with_manager_run].
      intros s2 rb ->. by apply delete_body_delegates.
Qed.

Lemma retrieve_and_delete_translate_first_witness :
  let request := VDict [("name", VStr "rex")] in
  let cls := VType (ResourceClass class_A) in
  exists retrieve delete,
    @Retrieve_retrieve nat demo = Return retrieve /\
    @Delete_delete nat demo = Return delete /\
    (exists inner,
        @wrapped_shape nat demo inner class_A request [] [] demo_store
          (invoke (Acm (retrieve []).1) cls request [] [] demo_store) /\
        name_of inner = "retrieve" /\
        forall s1,
          @translates_then nat demo [FieldBase "name"] request
            (@delegates_to_manager nat demo "retrieve" ["url_params"]
               (fun props => [("properties", props); ("status_code", VInt 200)])
               class_A demo_manager request)
            s1 (call inner cls request [] [] s1)) /\
    (exists inner,
        @wrapped_shape nat demo inner class_A request [] [] demo_store
          (invoke (Acm (delete []).1) cls request [] [] demo_store) /\
        name_of inner = "delete" /\
        forall s1,
          @translates_then nat demo [FieldBase "name"] request
            (@delegates_to_manager nat demo "delete" ["url_params"]
               (fun props => [("properties", props)])
               class_A demo_manager request)
            s1 (call inner cls request [] [] s1)).
Proof.
  exact (@retrieve_and_delete_translate_first nat demo class_A demo_manager
           (VDict [("name", VStr "rex")]) demo_store [] eq_refl).
Defined.

(** ** [retrieve_list] *)

Lemma dict_get_set (d : list (string * value)) (k : string) (v : value) (k' : string) :
  dict_get (dict_set d k v) k' = if String.eqb k k' then Some v else dict_get d k'.
Proof.
  induction d as [|[a b] d IH]; cbn; [done|].
  destruct (String.eqb a k) eqn:E; cbn.
  - apply String.eqb_eq in E as ->. by destruct (String.eqb k k').
  - destruct (String.eqb a k') eqn:E'; cbn; [|exact IH].
    apply String.eqb_eq in E' as ->. by rewrite String.eqb_sym, E.
Qed.

Lemma dict_get_absent (q : list (string * value)) (k : string) :
  k ∉ q.*1 -> dict_get q k = None.
Proof.
  induction q as [|[a b] q IH]; cbn; [done|].
  intros Hk. apply not_elem_of_cons in Hk as [Hne Hk].
  destruct (String.eqb a k) eqn:E; [|by apply IH].
  apply String.eqb_eq in E. congruence.
Qed.

(** [d.update(q)] for a dict [q]: the keys of [q] win. *)
Lemma dict_get_update (q : list (string * value)) :
  NoDup q.*1 ->
  forall d k,
    dict_get (foldl (fun acc kv => dict_set acc kv.1 kv.2) d q) k
    = match dict_get q k with
      | Some v => Some v
      | None => dict_get d k
      end.
Proof.
  induction q as [|[a b] q IH]; cbn; [done|].
  intros Hnd d k. apply NoDup_cons in Hnd as [Ha Hnd].
  rewrite (IH Hnd), dict_get_set.
  destruct (String.eqb a k) eqn:E; [|done].
  apply String.eqb_eq in E as <-. by rewrite (dict_get_absent q a Ha).
Qed.

(** X14. [RetrieveList.retrieve_list].  The class body passes the keyword
    [validate] to [translate], which refuses it: no action is built.  The
    body itself, on a class with a manager whose [retrieve_list] answers
    with a pair: the manager is called once, with the query arguments; the
    properties of the answer are a dict in which every query argument of
    the request keeps its value, and the key [resource_name] holds the
    manager's list unless a query argument has that name; [meta] is the
    second item of the manager's answer and [query_args] the manager's
    fields. *)
Theorem retrieve_list_merges_the_query_args `{World W} (resource_name : string)
  (c : pyclass) (m : Manager) (request qa props meta : value)
  (q : list (string * value)) (w' : W) (s : store W) :
  manager c = Some m ->
  request_attr request "query_args" (world s) = Return qa ->
  manager_call m "retrieve_list" [qa] (world s) = (Return (VList [props; meta]), w') ->
  request_attr request "query_args" w' = Return (VDict q) ->
  NoDup q.*1 ->
  let cls := VType (ResourceClass c) in
  let r := fn_code (def_ "retrieve_list" (retrieve_list_body resource_name))
             cls request [] [] s in
  RetrieveList_retrieve_list resource_name
  = Raise (TypeError "__init__() got an unexpected keyword argument 'validate'")
  /\ emitted r = [EvBody "retrieve_list" [cls; request] [];
                  EvManager m "retrieve_list" [qa] (Return (VList [props; meta]))]
  /\ final r = set_world s w'
  /\ exists d,
       res r = Return (VNew (ResourceClass c)
                         [("properties", VDict d); ("meta", meta);
                          ("status_code", VInt 200);
                          ("query_args", VList (VStr <$> fields m))])
       /\ forall k,
            dict_get d k
            = match dict_get q k with
              | Some v => Some v
              | None => if String.eqb resource_name k then Some props else None
              end.
Proof.
  intros Hm Hqa Hcall Hqa' Hnd. cbv zeta. split; [reflexivity|].
  destruct s as [w so ao]. cbn [world] in *.
  unfold def_, retrieve_list_body, getattr_manager, lift, read_request,
    call_manager, unpack_pair, dict_update, instantiate, emit, set_world,
    mbind, M_bind, bind, mret, M_ret, ret, raise.
  cbn. rewrite Hm. cbn. rewrite Hqa. cbn. rewrite Hcall. cbn. rewrite Hqa'. cbn.
  split; [done|]. split; [done|].
  eexists. split; [reflexivity|].
  intros k. rewrite (dict_get_update q Hnd). cbn.
  by destruct (dict_get q k), (String.eqb resource_name k).
Qed.

Lemma retrieve_list_merges_the_query_args_witness :
  let request := VDict [("pets", VInt 0); ("page", VInt 2)] in
  let cls := VType (ResourceClass class_A) in
  let r := fn_code (@def_ nat "retrieve_list" (@retrieve_list_body nat listing "pets"))
             cls request [] [] demo_store in
  res r = Return (VNew (ResourceClass class_A)
                    [("properties", VDict [("pets", VInt 0); ("page", VInt 2)]);
                     ("meta", VDict [("links", VDict [])]);
                     ("status_code", VInt 200);
                     ("query_args", VList [VStr "id"; VStr "name"])])
  /\ world (final r) = 1.
Proof.
  cbv zeta.
  destruct (@retrieve_list_merges_the_query_args nat listing "pets" class_A demo_manager
              (VDict [("pets", VInt 0); ("page", VInt 2)])
              (VDict [("pets", VInt 0); ("page", VInt 2)])
              (VList [VDict [("id", VInt 1)]]) (VDict [("links", VDict [])])
              [("pets", VInt 0); ("page", VInt 2)] 1 demo_store
              eq_refl eq_refl eq_refl eq_refl)
    as (_ & _ & Hfinal & d & Hres & _).
  { cbn. apply NoDup_cons. split; [|apply NoDup_singleton].
    intros Hin. apply list_elem_of_singleton in Hin. discriminate. }
  split; [reflexivity|]. by rewrite Hfinal.
Defined.
